(** * validate-spec.py: the skill validator, embedded and verified

  A shallow embedding of [scripts/validate-spec.py].  The script walks a
  tree of skill directories, parses the frontmatter of each [SKILL.md],
  runs field, structure and content rules, and maps the diagnostics it
  collected to rendered output and an exit code.

  Conventions of the embedding.
  - A Python [str] is a Rocq [string]; each character stands for one code
    point below 256, so [String.length] is Python's [len].  The three
    characters of the script's literals that lie above that range are
    written as their UTF-8 bytes; they occur in messages only.
  - The objects PyYAML's [safe_load] builds are the values of [pyobj]; a
    [dict] is a [gmap] on its string keys (the script looks up string
    keys only).
  - [pathlib] and the file system behind it form the interface
    [FileSystem]; PyYAML is a function handed to the validator.
  - A method that appends to [self.errors] or [self.warnings] is a state
    transformer on the validator object. *)

From Stdlib Require Import String Ascii List ZArith Lia Bool DecimalString.
From stdpp Require Import base gmap strings.
Import ListNotations.

Set Warnings "-register-all".
Local Open Scope string_scope.

(** ** Python string primitives *)

Module Str.

Definition chr (n : nat) : string := String (ascii_of_nat n) "".

(** ['\n'], ['\033'] and the double quote. *)
Definition NL : string := chr 10.
Definition ESC : string := chr 27.
Definition DQUOTE : string := chr 34.

(** [len(n)] rendered by an f-string. *)
Definition of_nat (n : nat) : string := NilEmpty.string_of_uint (Nat.to_uint n).

(** [s.startswith(p)] *)
Fixpoint startswith (s p : string) {struct p} : bool :=
  match p with
  | EmptyString => true
  | String a p' =>
      match s with
      | EmptyString => false
      | String b s' => Ascii.eqb a b && startswith s' p'
      end
  end.

(** [s[n:]] *)
Fixpoint drop (n : nat) (s : string) {struct n} : string :=
  match n with
  | O => s
  | S n' =>
      match s with
      | EmptyString => EmptyString
      | String _ s' => drop n' s'
      end
  end.

(** [s[:n]] *)
Fixpoint take (n : nat) (s : string) {struct n} : string :=
  match n with
  | O => EmptyString
  | S n' =>
      match s with
      | EmptyString => EmptyString
      | String c s' => String c (take n' s')
      end
  end.

(** [s[a:b]] for [0 <= a] and [0 <= b]. *)
Definition slice (a b : nat) (s : string) : string := take (b - a) (drop a s).

(** [s.endswith(p)] *)
Definition endswith (s p : string) : bool :=
  (String.length p <=? String.length s)%nat
  && String.eqb (drop (String.length s - String.length p) s) p.

(** [sub in s] *)
Fixpoint contains (sub s : string) : bool :=
  startswith s sub
  || match s with
     | EmptyString => false
     | String _ s' => contains sub s'
     end.

(** [s.find(sub, start)]: the lowest index at or after [start] where [sub]
    occurs; [None] stands for Python's [-1].  [pos] is the index of the
    first character of the suffix [s] under inspection. *)
Fixpoint find_from (sub s : string) (pos start : nat) : option nat :=
  if (start <=? pos)%nat && startswith s sub then Some pos
  else match s with
       | EmptyString => None
       | String _ s' => find_from sub s' (S pos) start
       end.

Definition find (s sub : string) (start : nat) : option nat :=
  find_from sub s 0 start.

(** [str.lower] on code points below 256: [A-Z] and the Latin-1 capitals
    (0xC0 to 0xDE, the multiplication sign 0xD7 apart) move up by 32. *)
Definition lower_char (c : ascii) : ascii :=
  let n := nat_of_ascii c in
  if ((65 <=? n) && (n <=? 90))%nat
     || ((192 <=? n) && (n <=? 222) && negb (n =? 215))%nat
  then ascii_of_nat (n + 32) else c.

Fixpoint lower (s : string) : string :=
  match s with
  | EmptyString => EmptyString
  | String c s' => String (lower_char c) (lower s')
  end.

(** [str.isspace] on one code point below 256. *)
Definition isspace (c : ascii) : bool :=
  let n := nat_of_ascii c in
  (((9 <=? n) && (n <=? 13)) || ((28 <=? n) && (n <=? 32))
   || (n =? 133) || (n =? 160))%nat.

Fixpoint lstrip (s : string) : string :=
  match s with
  | EmptyString => EmptyString
  | String c s' => if isspace c then lstrip s' else s
  end.

(** Right strip: a character is dropped when it is white space and all
    that follows it was dropped. *)
Fixpoint rstrip (s : string) : string :=
  match s with
  | EmptyString => EmptyString
  | String c s' =>
      match rstrip s' with
      | EmptyString => if isspace c then EmptyString else String c EmptyString
      | r => String c r
      end
  end.

(** [s.strip()] *)
Definition strip (s : string) : string := rstrip (lstrip s).

(** [s.split(sep)] for a separator of one character. *)
Fixpoint split (sep : ascii) (s : string) : list string :=
  match s with
  | EmptyString => [EmptyString]
  | String c s' =>
      if Ascii.eqb c sep then EmptyString :: split sep s'
      else match split sep s' with
           | h :: t => String c h :: t
           | [] => [String c EmptyString]
           end
  end.

(** The longest prefix of [s] whose characters satisfy [p], and the rest. *)
Fixpoint span (p : ascii -> bool) (s : string) : string * string :=
  match s with
  | EmptyString => (EmptyString, EmptyString)
  | String c s' =>
      if p c then let '(a, b) := span p s' in (String c a, b)
      else (EmptyString, s)
  end.

End Str.

(** ** The two regular expressions of the script *)

Module Re.

(** The character class [[a-z0-9-]]. *)
Definition name_char (c : ascii) : bool :=
  let n := nat_of_ascii c in
  (((97 <=? n) && (n <=? 122)) || ((48 <=? n) && (n <=? 57)) || (n =? 45))%nat.

(** [re.match(r'^[a-z0-9-]+$', name)].  Without [re.MULTILINE] the anchor
    [$] matches at the end of the string and also just before a newline
    that ends the string. *)
Definition match_name (name : string) : bool :=
  let '(run, rest) := Str.span name_char name in
  negb (String.eqb run "")
  && (String.eqb rest "" || String.eqb rest Str.NL).

(** One attempt to match [\[([^\]]+)\]\(([^)]+)\)] at the head of [s]:
    the two groups and the length of the match.  A negated class followed
    by the character it excludes leaves the greedy [+] one choice: the
    whole run up to the first such character. *)
Definition match_link (s : string) : option (string * string * nat) :=
  match s with
  | String "["%char s1 =>
      let '(text, r1) := Str.span (fun c => negb (Ascii.eqb c "]")) s1 in
      match text, r1 with
      | String _ _, String "]"%char (String "("%char s2) =>
          let '(target, r2) := Str.span (fun c => negb (Ascii.eqb c ")")) s2 in
          match target, r2 with
          | String _ _, String ")"%char _ =>
              Some (text, target, 4 + String.length text + String.length target)
          | _, _ => None
          end
      | _, _ => None
      end
  | _ => None
  end.

(** [re.findall] scans left to right and resumes after each match;
    [skip] counts the characters of the last match still to pass. *)
Fixpoint findall_links_from (skip : nat) (s : string) : list (string * string) :=
  match s with
  | EmptyString => []
  | String _ s' =>
      match skip with
      | S k => findall_links_from k s'
      | O =>
          match match_link s with
          | Some (text, target, n) => (text, target) :: findall_links_from (n - 1) s'
          | None => findall_links_from 0 s'
          end
      end
  end.

(** [re.findall(r'\[([^\]]+)\]\(([^)]+)\)', line)] *)
Definition findall_links (line : string) : list (string * string) :=
  findall_links_from 0 line.

End Re.


(** ** The objects [yaml.safe_load] returns *)

Inductive pyobj : Type :=
  | PyNone
  | PyBool (b : bool)
  | PyInt (z : Z)
  | PyFloat (repr : string)
  | PyStr (s : string)
  | PyList (items : list pyobj)
  | PyDict (d : gmap string pyobj)
  | PyOther (type_name : string).

(** [type(x).__name__]; [PyOther] covers what else the safe loader can
    build ([date], [datetime], [bytes], [set]). *)
Definition type_name (x : pyobj) : string :=
  match x with
  | PyNone => "NoneType"
  | PyBool _ => "bool"
  | PyInt _ => "int"
  | PyFloat _ => "float"
  | PyStr _ => "str"
  | PyList _ => "list"
  | PyDict _ => "dict"
  | PyOther n => n
  end.

(** [yaml.safe_load]: the object loaded, or the text of the [YAMLError]. *)
Definition yaml_loader : Type := string -> pyobj + string.

(** ** Configuration constants *)

Module Colors.
Definition RED : string := Str.ESC +:+ "[91m".
Definition YELLOW : string := Str.ESC +:+ "[93m".
Definition GREEN : string := Str.ESC +:+ "[92m".
Definition BLUE : string := Str.ESC +:+ "[94m".
Definition RESET : string := Str.ESC +:+ "[0m".
Definition BOLD : string := Str.ESC +:+ "[1m".
End Colors.

Definition RESERVED_WORDS : list string := ["anthropic"; "claude"].

Definition ALLOWED_SKILL_DIRS : gset string :=
  {[ "scripts"; "references"; "assets" ]}.

(** The text an f-string gives for [ALLOWED_SKILL_DIRS].  Python fixes no
    iteration order for a set of strings; this is one of the six texts a
    run can show, and no result below depends on which. *)
Definition ALLOWED_SKILL_DIRS_repr : string :=
  "{'scripts', 'references', 'assets'}".

Definition MAX_NAME_LENGTH : nat := 64.
Definition MAX_DESCRIPTION_LENGTH : nat := 1024.
Definition MAX_SKILL_LINES : nat := 500.

(** ** [pathlib] and the file system *)

Class FileSystem (Path : Type) : Type := {
  (** [p / s] *)
  joinpath : Path -> string -> Path;
  (** [p.name] *)
  path_name : Path -> string;
  (** [str(p)] *)
  path_str : Path -> string;
  (** [p.exists()] *)
  path_exists : Path -> bool;
  (** [p.is_dir()] *)
  is_dir : Path -> bool;
  (** [p.iterdir()], on a directory *)
  iterdir : Path -> list Path;
  (** [p.read_text(encoding='utf-8')]: the text, or the text of the
      exception raised *)
  read_text : Path -> string + string
}.

(** ** Diagnostics *)

Record ValidationError (Path : Type) : Type := mkValidationError {
  level : string;
  message : string;
  file_path : option Path
}.
Arguments mkValidationError {Path} _ _ _.
Arguments level {Path} _.
Arguments message {Path} _.
Arguments file_path {Path} _.

Section Formatting.
Context {Path : Type} `{FileSystem Path}.

Definition format_for_github (self : ValidationError Path) : string :=
  match file_path self with
  | Some p => "::" +:+ level self +:+ " file=" +:+ path_str p +:+ "::" +:+ message self
  | None => "::" +:+ level self +:+ "::" +:+ message self
  end.

Definition format_for_terminal (self : ValidationError Path) : string :=
  let prefix :=
    if String.eqb (level self) "error"
    then Colors.RED +:+ Colors.BOLD +:+ "ERROR" +:+ Colors.RESET
    else Colors.YELLOW +:+ Colors.BOLD +:+ "WARNING" +:+ Colors.RESET in
  let location :=
    match file_path self with
    | Some p => " (" +:+ Colors.BLUE +:+ path_str p +:+ Colors.RESET +:+ ")"
    | None => ""
    end in
  prefix +:+ location +:+ ": " +:+ message self.

End Formatting.

(** ** A state monad for methods that mutate [self] *)

Definition State (S A : Type) : Type := S -> A * S.

Definition ret {S A : Type} (a : A) : State S A := fun s => (a, s).

Definition bind {S A B : Type} (c : State S A) (k : A -> State S B) : State S B :=
  fun s => let '(a, s') := c s in k a s'.

Definition get {S : Type} : State S S := fun s => (s, s).

Declare Scope state_scope.
Delimit Scope state_scope with state.
Notation "'let*' x ':=' c 'in' k" := (bind c (fun x => k))
  (at level 10, x pattern, c at level 100, k at level 200) : state_scope.
Notation "c ;; k" := (bind c (fun _ => k))
  (at level 100, k at level 200, right associativity) : state_scope.

(** [if b: c] *)
Definition when {S : Type} (b : bool) (c : State S unit) : State S unit :=
  if b then c else ret tt.

(** [for x in l: body(x)] *)
Fixpoint for_each {S A : Type} (l : list A) (body : A -> State S unit) : State S unit :=
  match l with
  | [] => ret tt
  | x :: l' => bind (body x) (fun _ => for_each l' body)
  end.

(** The truth value of a list: [if l:] *)
Definition truthy {A : Type} (l : list A) : bool :=
  match l with
  | [] => false
  | _ :: _ => true
  end.

(** [any(p(x) for x in l)] *)
Definition any {A : Type} (p : A -> bool) (l : list A) : bool := existsb p l.

(** ** [class SkillValidator] *)

Module SkillValidator.

Record t (Path : Type) : Type := mk {
  skill_dir : Path;
  skill_md : Path;
  errors : list (ValidationError Path);
  warnings : list (ValidationError Path)
}.
Arguments mk {Path} _ _ _ _.
Arguments skill_dir {Path} _.
Arguments skill_md {Path} _.
Arguments errors {Path} _.
Arguments warnings {Path} _.

Section Methods.
Context {Path : Type} `{FileSystem Path}.
Variable safe_load : yaml_loader.

Local Open Scope state_scope.

Definition M (A : Type) : Type := State (t Path) A.

Definition __init__ (skill_dir : Path) : t Path :=
  mk skill_dir (joinpath skill_dir "SKILL.md") [] [].

(** [file_path or self.skill_md] *)
Definition or_skill_md (file_path : option Path) (self : t Path) : Path :=
  match file_path with
  | Some p => p
  | None => skill_md self
  end.

Definition error (message : string) (file_path : option Path) : M unit :=
  fun self =>
    let e := mkValidationError "error" message (Some (or_skill_md file_path self)) in
    (tt, mk (skill_dir self) (skill_md self) (errors self ++ [e]) (warnings self)).

Definition warning (message : string) (file_path : option Path) : M unit :=
  fun self =>
    let w := mkValidationError "warning" message (Some (or_skill_md file_path self)) in
    (tt, mk (skill_dir self) (skill_md self) (errors self) (warnings self ++ [w])).

(** [return self.errors, self.warnings] *)
Definition result : M (list (ValidationError Path) * list (ValidationError Path)) :=
  let* self := get in ret (errors self, warnings self).

Definition _parse_skill_md : M (option (gmap string pyobj) * string) :=
  let* self := get in
  match read_text (skill_md self) with
  | inr e =>
      error ("Failed to read SKILL.md: " +:+ e) None ;;
      ret (None, "")
  | inl content =>
      if negb (Str.startswith content ("---" +:+ Str.NL)) then
        error "SKILL.md must start with YAML frontmatter (---)" None ;;
        ret (None, content)
      else
        match Str.find content (Str.NL +:+ "---" +:+ Str.NL) 4 with
        | None =>
            error "SKILL.md frontmatter not properly closed (missing closing ---)" None ;;
            ret (None, content)
        | Some end_delimiter =>
            let frontmatter_text := Str.slice 4 end_delimiter content in
            let body := Str.drop (end_delimiter + 5) content in
            match safe_load frontmatter_text with
            | inl (PyDict frontmatter) => ret (Some frontmatter, body)
            | inl _ =>
                error "SKILL.md frontmatter must be a YAML dictionary" None ;;
                ret (None, body)
            | inr e =>
                error ("Invalid YAML in frontmatter: " +:+ e) None ;;
                ret (None, body)
            end
        end
  end.

Definition unexpected_directory (name : string) : string :=
  "Unexpected directory '" +:+ name +:+ "'. Only " +:+ ALLOWED_SKILL_DIRS_repr
  +:+ " are allowed.".

Definition _validate_directory_structure : M unit :=
  let* self := get in
  for_each (iterdir (skill_dir self)) (fun item =>
    when (is_dir item && bool_decide (path_name item ∉ ALLOWED_SKILL_DIRS))
      (error (unexpected_directory (path_name item)) None)).

Definition gerund_prefixes : list string :=
  ["analyzing"; "diagnosing"; "migrating"; "optimizing"; "configuring";
   "implementing"; "tuning"; "validating"; "planning"].

Definition _validate_name (name : pyobj) : M unit :=
  match name with
  | PyStr name =>
      let* self := get in
      when (MAX_NAME_LENGTH <? String.length name)%nat
        (error ("Skill name exceeds maximum length of " +:+ Str.of_nat MAX_NAME_LENGTH
                +:+ " characters (" +:+ Str.of_nat (String.length name) +:+ " chars)") None) ;;
      when (negb (Re.match_name name))
        (error "Skill name must contain only lowercase letters, numbers, and hyphens" None) ;;
      for_each RESERVED_WORDS (fun reserved =>
        when (Str.contains reserved name)
          (error ("Skill name cannot contain reserved word '" +:+ reserved +:+ "'") None)) ;;
      when (Str.contains "<" name || Str.contains ">" name)
        (error "Skill name cannot contain XML tags" None) ;;
      when (negb (String.eqb name (path_name (skill_dir self))))
        (error ("Skill name '" +:+ name +:+ "' does not match directory name '"
                +:+ path_name (skill_dir self) +:+ "'") None) ;;
      when (negb (Str.endswith name "ing")
            && negb (any (fun prefix => Str.startswith name prefix) gerund_prefixes))
        (warning ("Consider using gerund form (verb-ing) for skill name: '" +:+ name
                  +:+ "' → '" +:+ name +:+ "ing' or 'analyzing-" +:+ name +:+ "'") None)
  | _ =>
      error ("Skill name must be a string, got " +:+ type_name name) None
  end.

Definition trigger_keywords : list string :=
  ["use when"; "when"; "if you"; "for"; "helps"; "guides"].

Definition first_person_words : list string := ["i "; "we "; "my "; "our "].

Definition _validate_description (description : pyobj) : M unit :=
  match description with
  | PyStr description =>
      if String.eqb (Str.strip description) "" then
        error "Skill description cannot be empty" None
      else
        when (MAX_DESCRIPTION_LENGTH <? String.length description)%nat
          (error ("Skill description exceeds maximum length of "
                  +:+ Str.of_nat MAX_DESCRIPTION_LENGTH +:+ " characters ("
                  +:+ Str.of_nat (String.length description) +:+ " chars)") None) ;;
        when (Str.contains "<" description || Str.contains ">" description)
          (error "Skill description cannot contain XML tags" None) ;;
        let has_trigger :=
          any (fun keyword => Str.contains keyword (Str.lower description)) trigger_keywords in
        when (negb has_trigger)
          (warning "Description should include clear 'when to use' triggers (e.g., 'Use when...', 'For...')" None) ;;
        when (any (fun word => Str.contains word (Str.lower description)) first_person_words)
          (warning "Description should use third person (avoid 'I', 'we', 'my', 'our')" None) ;;
        when (length (Str.split "." description) <? 2)%nat
          (warning "Description should include both WHAT the skill does and WHEN to use it (at least 2 sentences recommended)" None)
  | _ =>
      error ("Skill description must be a string, got " +:+ type_name description) None
  end.

Definition _validate_license (license_value : pyobj) : M unit :=
  match license_value with
  | PyStr _ => ret tt
  | _ => error ("'license' field must be a string, got " +:+ type_name license_value) None
  end.

Definition _validate_compatibility (compatibility : pyobj) : M unit :=
  match compatibility with
  | PyStr _ => ret tt
  | _ => error ("'compatibility' field must be a string, got "
                +:+ type_name compatibility) None
  end.

Definition _validate_frontmatter (frontmatter : gmap string pyobj) : M unit :=
  match frontmatter !! "name" with
  | None => error "Missing required field 'name' in frontmatter" None
  | Some name =>
      match frontmatter !! "description" with
      | None => error "Missing required field 'description' in frontmatter" None
      | Some description =>
          _validate_name name ;;
          _validate_description description ;;
          match frontmatter !! "license" with
          | Some license_value => _validate_license license_value
          | None => ret tt
          end ;;
          match frontmatter !! "compatibility" with
          | Some compatibility => _validate_compatibility compatibility
          | None => ret tt
          end ;;
          match frontmatter !! "metadata" with
          | Some (PyDict _) | None => ret tt
          | Some _ => error "'metadata' field must be a dictionary" None
          end
      end
  end.

Definition url_prefixes : list string := ["http://"; "https://"; "#"; "mailto:"].

Definition _validate_content (body : string) : M unit :=
  let* self := get in
  let lines := Str.split "010" body in
  when (MAX_SKILL_LINES <? length lines)%nat
    (warning ("SKILL.md has " +:+ Str.of_nat (length lines) +:+ " lines (recommended: ≤"
              +:+ Str.of_nat MAX_SKILL_LINES
              +:+ "). Consider using references/ for detailed content.") None) ;;
  for_each lines (fun line =>
    let matches := Re.findall_links line in
    for_each matches (fun '(link_text, link_path) =>
      when (negb (any (fun p => Str.startswith link_path p) url_prefixes))
        (let referenced_path := joinpath (skill_dir self) link_path in
         when (negb (path_exists referenced_path))
           (warning ("Broken internal reference: " +:+ link_path) None)))).

Definition validate : M (list (ValidationError Path) * list (ValidationError Path)) :=
  let* self := get in
  if negb (path_exists (skill_md self)) then
    error ("Missing required SKILL.md file in " +:+ path_str (skill_dir self)) None ;;
    result
  else
    let* (frontmatter, body) := _parse_skill_md in
    match frontmatter with
    | None => result
    | Some frontmatter =>
        _validate_directory_structure ;;
        _validate_frontmatter frontmatter ;;
        _validate_content body ;;
        result
    end.

End Methods.
End SkillValidator.

(** ** [class RepositoryValidator] *)

Module RepositoryValidator.

Record t (Path : Type) : Type := mk {
  skills_dir : Path;
  errors : list (ValidationError Path);
  warnings : list (ValidationError Path)
}.
Arguments mk {Path} _ _ _.
Arguments skills_dir {Path} _.
Arguments errors {Path} _.
Arguments warnings {Path} _.

Section Methods.
Context {Path : Type} `{FileSystem Path}.
Variable safe_load : yaml_loader.

Definition __init__ (skills_dir : Path) : t Path := mk skills_dir [] [].

(** A name that marks a hidden entry. *)
Definition hidden (p : Path) : bool := Str.startswith (path_name p) ".".

(** The inner loop of [_find_skill_directories], over one domain directory;
    [skill_dirs] is the list built so far. *)
Definition scan_domain (skill_dirs : list Path) (domain_dir : Path) : list Path :=
  fold_left (fun (skill_dirs : list Path) (potential_skill_dir : Path) =>
    if negb (is_dir potential_skill_dir) then skill_dirs
    else if hidden potential_skill_dir then skill_dirs
    else if path_exists (joinpath potential_skill_dir "SKILL.md")
         then (skill_dirs ++ [potential_skill_dir])%list
         else skill_dirs)
    (iterdir domain_dir) skill_dirs.

Definition _find_skill_directories (self : t Path) : list Path :=
  if path_exists (joinpath (skills_dir self) "SKILL.md") then [skills_dir self]
  else
    fold_left (fun (skill_dirs : list Path) (domain_dir : Path) =>
      if negb (is_dir domain_dir) then skill_dirs
      else if hidden domain_dir then skill_dirs
      else scan_domain skill_dirs domain_dir)
      (iterdir (skills_dir self)) [].

Definition validate (self : t Path)
  : list (ValidationError Path) * list (ValidationError Path) :=
  if negb (path_exists (skills_dir self)) then
    ([mkValidationError "error"
        ("Skills directory not found: " +:+ path_str (skills_dir self)) None], [])
  else if negb (is_dir (skills_dir self)) then
    ([mkValidationError "error"
        ("Path is not a directory: " +:+ path_str (skills_dir self)) None], [])
  else
    let skill_dirs := _find_skill_directories self in
    if negb (truthy skill_dirs) then ([], [])
    else
        let self' :=
          fold_left (fun (self : t Path) (skill_dir : Path) =>
            let validator := SkillValidator.__init__ skill_dir in
            let '(errors', warnings') := fst (SkillValidator.validate safe_load validator) in
            mk (skills_dir self) (errors self ++ errors') (warnings self ++ warnings'))
            skill_dirs self in
        (errors self', warnings self').

End Methods.
End RepositoryValidator.

(** ** [main] *)

(** The namespace [argparse] returns. *)
Record Namespace (Path : Type) : Type := mkNamespace {
  path : Path;
  strict : bool;
  github : bool
}.
Arguments mkNamespace {Path} _ _ _.
Arguments path {Path} _.
Arguments strict {Path} _.
Arguments github {Path} _.

Section Main.
Context {Path : Type} `{FileSystem Path}.
Variable safe_load : yaml_loader.

(** [args.github or 'GITHUB_ACTIONS' in sys.argv] *)
Definition is_github_actions (args : Namespace Path) (sys_argv : list string) : bool :=
  github args || bool_decide ("GITHUB_ACTIONS" ∈ sys_argv).

(** The body of the two printing loops. *)
Definition print_diagnostic (is_github_actions : bool) (d : ValidationError Path) : string :=
  if is_github_actions then format_for_github d else format_for_terminal d.

Definition errors_header (n : nat) : string :=
  Str.NL +:+ Colors.RED +:+ Colors.BOLD +:+ "Found " +:+ Str.of_nat n +:+ " error(s):"
  +:+ Colors.RESET +:+ Str.NL.

Definition warnings_header (n : nat) : string :=
  Str.NL +:+ Colors.YELLOW +:+ Colors.BOLD +:+ "Found " +:+ Str.of_nat n +:+ " warning(s):"
  +:+ Colors.RESET +:+ Str.NL.

Definition all_passed : string :=
  Str.NL +:+ Colors.GREEN +:+ Colors.BOLD +:+ "✓ All validations passed!"
  +:+ Colors.RESET +:+ Str.NL.

(** [main], after [parse_args]: what each [print] call wrote, in order, and
    the value returned to [sys.exit]. *)
Definition main (args : Namespace Path) (sys_argv : list string) : list string * Z :=
  let validator := RepositoryValidator.__init__ (path args) in
  let '(errors, warnings) := RepositoryValidator.validate safe_load validator in
  let is_github_actions := is_github_actions args sys_argv in
  let out_errors :=
    if truthy errors
    then errors_header (length errors) :: map (print_diagnostic is_github_actions) errors
    else [] in
  let out_warnings :=
    if truthy warnings
    then warnings_header (length warnings)
         :: map (print_diagnostic is_github_actions) warnings
    else [] in
  let stdout := (out_errors ++ out_warnings)%list in
  if negb (truthy errors) && negb (truthy warnings) then ((stdout ++ [all_passed])%list, 0%Z)
  else if truthy errors then (stdout, 1%Z)
  else if strict args && truthy warnings then (stdout, 1%Z)
  else (stdout, 0%Z).

End Main.

(** ** A file system to run the validator on

    Directory trees as data.  A path is the list of names leading from the
    root of the tree to an entry. *)

Module Tree.

Inductive node : Type :=
  | File (content : string)
  | Dir (entries : list (string * node)).

Fixpoint entry (name : string) (entries : list (string * node)) : option node :=
  match entries with
  | [] => None
  | (n, x) :: rest => if String.eqb n name then Some x else entry name rest
  end.

Fixpoint lookup (root : node) (p : list string) : option node :=
  match p with
  | [] => Some root
  | name :: p' =>
      match root with
      | Dir entries =>
          match entry name entries with
          | Some x => lookup x p'
          | None => None
          end
      | File _ => None
      end
  end.

(** The segments of a relative path written with [/]; empty segments and
    [.] are dropped, as [pathlib] does. *)
Definition segments (s : string) : list string :=
  List.filter (fun seg => negb (String.eqb seg "" || String.eqb seg "."))
              (Str.split "/" s).

Definition str (p : list string) : string := String.concat "/" p.

Definition file_system (root : node) : FileSystem (list string) := {|
  joinpath p s := (p ++ segments s)%list;
  path_name p := List.last p "";
  path_str := str;
  path_exists p := match lookup root p with Some _ => true | None => false end;
  is_dir p := match lookup root p with Some (Dir _) => true | _ => false end;
  iterdir p :=
    match lookup root p with
    | Some (Dir entries) => map (fun e => (p ++ [fst e])%list) entries
    | _ => []
    end;
  read_text p :=
    match lookup root p with
    | Some (File content) => inl content
    | Some (Dir _) => inr ("[Errno 21] Is a directory: '" +:+ str p +:+ "'")
    | None => inr ("[Errno 2] No such file or directory: '" +:+ str p +:+ "'")
    end
|}.

End Tree.

(** ** A loader for flat frontmatter

    Enough of YAML to run the examples: an empty document loads as [None],
    a document of [key: value] lines as a [dict] of strings, a value in
    double quotes without them; any other line is a [YAMLError]. *)

Module FlatYaml.

Definition unquote (v : string) : string :=
  if (2 <=? String.length v)%nat && Str.startswith v Str.DQUOTE && Str.endswith v Str.DQUOTE
  then Str.slice 1 (String.length v - 1) v
  else v.

Fixpoint load_lines (lines : list string) (d : gmap string pyobj) : pyobj + string :=
  match lines with
  | [] => inl (PyDict d)
  | line :: rest =>
      match Str.find line ": " 0 with
      | Some i =>
          load_lines rest
            (<[ Str.slice 0 i line := PyStr (unquote (Str.drop (i + 2) line)) ]> d)
      | None => inr ("could not find expected ':' in " +:+ line)
      end
  end.

Definition safe_load : yaml_loader := fun text =>
  if String.eqb text "" then inl PyNone
  else load_lines (Str.split "010" text) ∅.

End FlatYaml.

(** ** Example trees *)

Module Demo.

Definition lines (l : list string) : string := String.concat Str.NL l.

(** The frontmatter of the [foo-bar] scenario. *)
Definition foo_bar_frontmatter : string :=
  lines ["name: foo-bar";
         "description: " +:+ Str.DQUOTE +:+ "Use when the user needs X." +:+ Str.DQUOTE].

Definition ten_lines : string :=
  lines ["# Foo bar"; ""; "Step one."; "Step two."; "Step three."; "Step four.";
         "Step five."; "Step six."; "Step seven."; "Done."].

Definition foo_bar_md : string :=
  lines ["---"; foo_bar_frontmatter; "---"; ten_lines].

(** A repository with one domain holding the [foo-bar] skill. *)
Definition repository : Tree.node :=
  Tree.Dir [("README.md", Tree.File "skills");
            ("domain", Tree.Dir [("foo-bar", Tree.Dir [("SKILL.md", Tree.File foo_bar_md)])])].

(** A skill whose [SKILL.md] has no frontmatter, next to a directory that
    is not allowed. *)
Definition no_frontmatter : Tree.node :=
  Tree.Dir [("broken", Tree.Dir [("SKILL.md", Tree.File "# No frontmatter here");
                                 ("extra", Tree.Dir [])])].

(** The same skill with its frontmatter in place. *)
Definition with_extra : Tree.node :=
  Tree.Dir [("foo-bar", Tree.Dir [("SKILL.md", Tree.File foo_bar_md);
                                  ("extra", Tree.Dir []);
                                  ("scripts", Tree.Dir []);
                                  ("notes.txt", Tree.File "")])].

(** A closing delimiter on the last line of the file, with no newline
    after it. *)
Definition unterminated_md : string :=
  lines ["---"; "name: foo-bar"; "description: Use when needed. Helps."; "---"].

Definition unterminated : Tree.node :=
  Tree.Dir [("foo-bar", Tree.Dir [("SKILL.md", Tree.File unterminated_md)])].

(** A [SKILL.md] three levels below the root. *)
Definition too_deep : Tree.node :=
  Tree.Dir [("domain", Tree.Dir [("group", Tree.Dir [("foo-bar",
              Tree.Dir [("SKILL.md", Tree.File foo_bar_md)])])])].

(** A skill directory that is named as the marker [main] looks for in
    its argument list. *)
Definition actions_tree : Tree.node :=
  Tree.Dir [("GITHUB_ACTIONS", Tree.Dir [("SKILL.md", Tree.File foo_bar_md)])].

(** The script under test doubles: a tree as file system and the flat
    loader as PyYAML. *)
Definition validate_skill (root : Tree.node) (skill_dir : list string)
  : list (ValidationError (list string)) * list (ValidationError (list string)) :=
  fst (@SkillValidator.validate _ (Tree.file_system root) FlatYaml.safe_load
         (@SkillValidator.__init__ _ (Tree.file_system root) skill_dir)).

Definition find_skills (root : Tree.node) (skills_dir : list string) : list (list string) :=
  @RepositoryValidator._find_skill_directories _ (Tree.file_system root)
    (RepositoryValidator.__init__ skills_dir).

Definition validate_repository (root : Tree.node) (skills_dir : list string)
  : list (ValidationError (list string)) * list (ValidationError (list string)) :=
  @RepositoryValidator.validate _ (Tree.file_system root) FlatYaml.safe_load
    (RepositoryValidator.__init__ skills_dir).

Definition run_main (root : Tree.node) (args : Namespace (list string))
           (sys_argv : list string) : list string * Z :=
  @main _ (Tree.file_system root) FlatYaml.safe_load args sys_argv.

(** The mapping the [foo-bar] frontmatter loads as. *)
Definition foo_bar_mapping : gmap string pyobj :=
  {[ "name" := PyStr "foo-bar";
     "description" := PyStr "Use when the user needs X." ]}.

(** Frontmatter with one mandatory field missing. *)
Definition only_description : gmap string pyobj := {[ "description" := PyStr "" ]}.
Definition only_name : gmap string pyobj := {[ "name" := PyStr "my_skill" ]}.

(** A fresh validator of [skill_dir] after one method ran on it. *)
Definition after (root : Tree.node) (skill_dir : list string)
           (method : SkillValidator.M (Path := list string) unit)
  : SkillValidator.t (list string) :=
  snd (method (@SkillValidator.__init__ _ (Tree.file_system root) skill_dir)).

Definition check_frontmatter (root : Tree.node) (skill_dir : list string)
           (frontmatter : gmap string pyobj) : SkillValidator.t (list string) :=
  after root skill_dir
    (@SkillValidator._validate_frontmatter _ (Tree.file_system root) frontmatter).

Definition check_name (root : Tree.node) (skill_dir : list string) (name : pyobj)
  : SkillValidator.t (list string) :=
  after root skill_dir (@SkillValidator._validate_name _ (Tree.file_system root) name).

Definition check_description (root : Tree.node) (skill_dir : list string)
           (description : pyobj) : SkillValidator.t (list string) :=
  after root skill_dir
    (SkillValidator._validate_description description).

End Demo.

(** ** The rules, as tables

    What the specification's rule table says each field validator reports:
    a rule is a condition with the message it stands for, and a table
    reports the messages of all the conditions that hold, in order. *)

Module Rules.

Definition rule : Type := bool * string.

Definition fired (table : list rule) : list string :=
  map snd (List.filter fst table).

Definition reserved_rule (name reserved : string) : rule :=
  (Str.contains reserved name,
   "Skill name cannot contain reserved word '" +:+ reserved +:+ "'").

Definition name_errors (dir_name name : string) : list rule :=
  [ ((MAX_NAME_LENGTH <? String.length name)%nat,
     "Skill name exceeds maximum length of " +:+ Str.of_nat MAX_NAME_LENGTH
     +:+ " characters (" +:+ Str.of_nat (String.length name) +:+ " chars)");
    (negb (Re.match_name name),
     "Skill name must contain only lowercase letters, numbers, and hyphens") ]
  ++ map (reserved_rule name) RESERVED_WORDS
  ++ [ (Str.contains "<" name || Str.contains ">" name,
        "Skill name cannot contain XML tags");
       (negb (String.eqb name dir_name),
        "Skill name '" +:+ name +:+ "' does not match directory name '"
        +:+ dir_name +:+ "'") ].

Definition name_warnings (name : string) : list rule :=
  [ (negb (Str.endswith name "ing")
     && negb (any (fun prefix => Str.startswith name prefix)
                  SkillValidator.gerund_prefixes),
     "Consider using gerund form (verb-ing) for skill name: '" +:+ name
     +:+ "' → '" +:+ name +:+ "ing' or 'analyzing-" +:+ name +:+ "'") ].

Definition description_errors (description : string) : list rule :=
  [ ((MAX_DESCRIPTION_LENGTH <? String.length description)%nat,
     "Skill description exceeds maximum length of "
     +:+ Str.of_nat MAX_DESCRIPTION_LENGTH +:+ " characters ("
     +:+ Str.of_nat (String.length description) +:+ " chars)");
    (Str.contains "<" description || Str.contains ">" description,
     "Skill description cannot contain XML tags") ].

Definition description_warnings (description : string) : list rule :=
  [ (negb (any (fun keyword => Str.contains keyword (Str.lower description))
               SkillValidator.trigger_keywords),
     "Description should include clear 'when to use' triggers (e.g., 'Use when...', 'For...')");
    (any (fun word => Str.contains word (Str.lower description))
         SkillValidator.first_person_words,
     "Description should use third person (avoid 'I', 'we', 'my', 'our')");
    ((length (Str.split "." description) <? 2)%nat,
     "Description should include both WHAT the skill does and WHEN to use it (at least 2 sentences recommended)") ].

(** The error and warning messages of a [name] value. *)
Definition name_diagnostics (dir_name : string) (name : pyobj) : list string * list string :=
  match name with
  | PyStr name => (fired (name_errors dir_name name), fired (name_warnings name))
  | _ => (["Skill name must be a string, got " +:+ type_name name], [])
  end.

Definition description_empty : string := "Skill description cannot be empty".

(** The error and warning messages of a [description] value; the empty
    description is the one rule that ends the checks of its field. *)
Definition description_diagnostics (description : pyobj) : list string * list string :=
  match description with
  | PyStr description =>
      if String.eqb (Str.strip description) "" then ([description_empty], [])
      else (fired (description_errors description),
            fired (description_warnings description))
  | _ => (["Skill description must be a string, got " +:+ type_name description], [])
  end.

(** A field that must be a string when it is present. *)
Definition string_field (field : string) (value : option pyobj) : list string :=
  match value with
  | None | Some (PyStr _) => []
  | Some v => ["'" +:+ field +:+ "' field must be a string, got " +:+ type_name v]
  end.

Definition metadata_field (value : option pyobj) : list string :=
  match value with
  | None | Some (PyDict _) => []
  | Some _ => ["'metadata' field must be a dictionary"]
  end.

Definition missing_field (field : string) : string :=
  "Missing required field '" +:+ field +:+ "' in frontmatter".

(** The messages of a parsed frontmatter. *)
Definition frontmatter_diagnostics (dir_name : string) (frontmatter : gmap string pyobj)
  : list string * list string :=
  match frontmatter !! "name", frontmatter !! "description" with
  | None, _ => ([missing_field "name"], [])
  | Some _, None => ([missing_field "description"], [])
  | Some name, Some description =>
      let '(ne, nw) := name_diagnostics dir_name name in
      let '(de, dw) := description_diagnostics description in
      (ne ++ de ++ string_field "license" (frontmatter !! "license")
          ++ string_field "compatibility" (frontmatter !! "compatibility")
          ++ metadata_field (frontmatter !! "metadata"),
       nw ++ dw)%list
  end.

End Rules.

(** ** Vocabulary of the statements *)

Section Vocabulary.
Context {Path : Type} `{FileSystem Path}.

(** The validator after it reported the error messages [es] and the
    warning messages [ws]. *)
Definition reports (self : SkillValidator.t Path) (es ws : list string)
  : SkillValidator.t Path :=
  let at_md (lvl : string) (m : string) :=
    mkValidationError lvl m (Some (SkillValidator.skill_md self)) in
  SkillValidator.mk (SkillValidator.skill_dir self) (SkillValidator.skill_md self)
    (SkillValidator.errors self ++ map (at_md "error") es)
    (SkillValidator.warnings self ++ map (at_md "warning") ws).

(** The entries of a skill directory the structure check rejects. *)
Definition disallowed_subdirectories (skill_dir : Path) : list Path :=
  List.filter (fun item => is_dir item && bool_decide (path_name item ∉ ALLOWED_SKILL_DIRS))
              (iterdir skill_dir).

Definition is_structural_error (e : ValidationError Path) : bool :=
  Str.startswith (message e) "Unexpected directory '".

(** The body has no link the content check would resolve. *)
Definition no_links (body : string) : Prop :=
  Forall (fun line => Re.findall_links line = []) (Str.split "010" body).

(** The messages of the structure check. *)
Definition structure_errors (skill_dir : Path) : list string :=
  map (fun item => SkillValidator.unexpected_directory (path_name item))
      (disallowed_subdirectories skill_dir).

(** The warning a link of the body earns: none for a URL, a fragment or a
    [mailto:] target, none for a target that exists. *)
Definition link_warning (skill_dir : Path) (link : string * string) : list string :=
  if negb (any (fun p => Str.startswith (snd link) p) SkillValidator.url_prefixes)
     && negb (path_exists (joinpath skill_dir (snd link)))
  then ["Broken internal reference: " +:+ snd link]
  else [].

(** The warnings of the content check. *)
Definition content_warnings (skill_dir : Path) (body : string) : list string :=
  let lines := Str.split "010" body in
  (if (MAX_SKILL_LINES <? length lines)%nat
   then ["SKILL.md has " +:+ Str.of_nat (length lines) +:+ " lines (recommended: ≤"
         +:+ Str.of_nat MAX_SKILL_LINES
         +:+ "). Consider using references/ for detailed content."]
   else [])
  ++ flat_map (fun line => flat_map (link_warning skill_dir) (Re.findall_links line)) lines.

(** [c], run on a validator of the directory [dir], returns after it
    reported exactly [es] and [ws]. *)
Definition emits (dir : Path) (c : SkillValidator.M unit) (es ws : list string) : Prop :=
  forall self : SkillValidator.t Path,
    SkillValidator.skill_dir self = dir -> c self = (tt, reports self es ws).

(** The frontmatter [validate] goes on with: the mapping parsed from an
    existing [SKILL.md], if there is one. *)
Definition parsed_frontmatter (safe_load : yaml_loader) (skill_dir : Path)
  : option (gmap string pyobj) :=
  let validator := SkillValidator.__init__ skill_dir in
  if path_exists (SkillValidator.skill_md validator)
  then fst (fst (SkillValidator._parse_skill_md safe_load validator))
  else None.

(** An error of a skill, located at its [SKILL.md]. *)
Definition error_at (skill_dir : Path) (m : string) : ValidationError Path :=
  mkValidationError "error" m (Some (joinpath skill_dir "SKILL.md")).

Definition warning_at (skill_dir : Path) (m : string) : ValidationError Path :=
  mkValidationError "warning" m (Some (joinpath skill_dir "SKILL.md")).

(** A message that is not one of the structure check. *)
Definition not_structural (m : string) : Prop :=
  Str.startswith m "Unexpected directory '" = false.

(** The character a printed line starts with. *)
Definition first_char (s : string) : option ascii :=
  match s with
  | EmptyString => None
  | String c _ => Some c
  end.

(** A skill directory inside a domain directory. *)
Definition skill_in (domain_dir d : Path) : Prop :=
  In d (iterdir domain_dir) /\ is_dir d = true /\ RepositoryValidator.hidden d = false
  /\ path_exists (joinpath d "SKILL.md") = true.

End Vocabulary.

(** ** More sample trees *)

Module Samples.

(** A frontmatter block with nothing between its delimiters but an empty
    line: the text handed to the loader is empty. *)
Definition blank_frontmatter_md : string :=
  Demo.lines ["---"; ""; "---"; "# Body"].

(** A frontmatter block that is not YAML: a flow mapping left open. *)
Definition invalid_yaml_md : string :=
  Demo.lines ["---"; "{unclosed"; "---"; "# Body"].

(** The closing delimiter directly after the opening one. *)
Definition empty_block_md : string :=
  Demo.lines ["---"; "---"; "# Body"; ""].

Definition skill_with (md : string) : Tree.node :=
  Tree.Dir [("foo-bar", Tree.Dir [("SKILL.md", Tree.File md)])].

(** A body whose links are all of the kinds the content check skips. *)
Definition url_body : string :=
  Demo.lines ["See [docs](https://example.com/a) and [top](#top).";
              "Mail [us](mailto:team@example.com) or read [more](http://example.com)."].

(** A body with one link to a file that is there and one to a file that
    is not. *)
Definition linked_body : string :=
  Demo.lines ["Read [the guide](references/guide.md).";
              "Then [the rest](references/missing.md)."].

Definition linked_md : string :=
  Demo.lines ["---"; Demo.foo_bar_frontmatter; "---"; linked_body].

Definition linked : Tree.node :=
  Tree.Dir [("foo-bar",
             Tree.Dir [("SKILL.md", Tree.File linked_md);
                       ("references", Tree.Dir [("guide.md", Tree.File "guide")])])].

(** [n] copies of a character. *)
Fixpoint replicate (n : nat) (c : ascii) : string :=
  match n with
  | O => EmptyString
  | S n' => String c (replicate n' c)
  end.

(** A description of 1025 characters. *)
Definition long_description : string :=
  "Use when needed. " +:+ replicate 1008 "a".

(** A repository of two domains and three skills, one of them hidden. *)
Definition two_domains : Tree.node :=
  Tree.Dir
    [("alpha", Tree.Dir [("foo-bar", Tree.Dir [("SKILL.md", Tree.File Demo.foo_bar_md)]);
                         (".draft", Tree.Dir [("SKILL.md", Tree.File Demo.foo_bar_md)])]);
     ("beta", Tree.Dir [("broken", Tree.Dir [("SKILL.md", Tree.File "# No frontmatter")]);
                        ("notes.txt", Tree.File "")]);
     (".git", Tree.Dir [("hooks", Tree.Dir [("SKILL.md", Tree.File Demo.foo_bar_md)])])].

(** A repository without any skill. *)
Definition no_skills : Tree.node :=
  Tree.Dir [("README.md", Tree.File "nothing here"); ("docs", Tree.Dir [])].

End Samples.

(** ** Vocabulary of the further properties *)

Section MoreVocabulary.
Context {Path : Type} `{FileSystem Path}.

(** A link the content check has nothing to say about. *)
Definition link_is_fine (dir : Path) (link : string * string) : Prop :=
  any (fun p => Str.startswith (snd link) p) SkillValidator.url_prefixes = true
  \/ path_exists (joinpath dir (snd link)) = true.

(** What validating one skill directory returns. *)
Definition skill_report (safe_load : yaml_loader) (skill_dir : Path)
  : list (ValidationError Path) * list (ValidationError Path) :=
  fst (SkillValidator.validate safe_load (SkillValidator.__init__ skill_dir)).

(** The one diagnostic of a run whose root cannot be scanned. *)
Definition root_error (root : Path) : ValidationError Path :=
  mkValidationError "error"
    ((if path_exists root then "Path is not a directory: "
      else "Skills directory not found: ") +:+ path_str root)
    None.

End MoreVocabulary.

(** * Verification *)

(** ** The string and regular-expression primitives on sample inputs *)

Example newline_is_chr_10 : String "010" "" = Str.NL.
Proof. reflexivity. Qed.

Example find_closing_delimiter :
  Str.find ("---" +:+ Str.NL +:+ "a: b" +:+ Str.NL +:+ "---" +:+ Str.NL +:+ "body")
           (Str.NL +:+ "---" +:+ Str.NL) 4 = Some 8.
Proof. reflexivity. Qed.

Example find_skips_before_start :
  Str.find ("---" +:+ Str.NL +:+ "---" +:+ Str.NL) (Str.NL +:+ "---" +:+ Str.NL) 4 = None.
Proof. reflexivity. Qed.

Example split_sentences :
  Str.split "." "Use when the user needs X." = ["Use when the user needs X"; ""].
Proof. reflexivity. Qed.

Example strip_blank : Str.strip ("  " +:+ Str.NL +:+ " ") = "".
Proof. reflexivity. Qed.

Example strip_inner : Str.strip (" a b " +:+ Str.NL) = "a b".
Proof. reflexivity. Qed.

Example lower_mixed : Str.lower "Use WHEN-42" = "use when-42".
Proof. reflexivity. Qed.

Example match_name_newline : Re.match_name ("ab-1" +:+ Str.NL) = true.
Proof. reflexivity. Qed.

Example match_name_underscore : Re.match_name "my_skill" = false.
Proof. reflexivity. Qed.

Example findall_two_links :
  Re.findall_links "see [a](b.md) and [c d](http://x) [](y) [e](f"
  = [("a", "b.md"); ("c d", "http://x")].
Proof. reflexivity. Qed.

Example endswith_ing : Str.endswith "tuning" "ing" = true.
Proof. reflexivity. Qed.

(** ** What a method reports *)

Section Reports.
Context {Path : Type} `{FileSystem Path}.

Import SkillValidator.
Local Open Scope state_scope.

Lemma reports_nil (self : t Path) : reports self [] [] = self.
Proof.
  destruct self as [d m es ws]. unfold reports. cbn.
  now rewrite !app_nil_r.
Qed.

Lemma reports_reports (self : t Path) (e1 w1 e2 w2 : list string) :
  reports (reports self e1 w1) e2 w2 = reports self (e1 ++ e2) (w1 ++ w2).
Proof.
  unfold reports. cbn. now rewrite !map_app, !app_assoc.
Qed.

Lemma emits_conv (dir : Path) (c : M unit) (es ws es' ws' : list string) :
  emits dir c es ws -> es = es' -> ws = ws' -> emits dir c es' ws'.
Proof. now intros Hc <- <-. Qed.

Lemma emits_ret (dir : Path) : emits dir (ret tt) [] [].
Proof. intros self _. unfold ret. now rewrite reports_nil. Qed.

Lemma emits_error (dir : Path) (m : string) : emits dir (error m None) [m] [].
Proof.
  intros self _. unfold error, reports. cbn. now rewrite app_nil_r.
Qed.

Lemma emits_warning (dir : Path) (m : string) : emits dir (warning m None) [] [m].
Proof.
  intros self _. unfold warning, reports. cbn. now rewrite app_nil_r.
Qed.

Lemma emits_seq (dir : Path) (c1 c2 : M unit) (e1 w1 e2 w2 : list string) :
  emits dir c1 e1 w1 -> emits dir c2 e2 w2 ->
  emits dir (c1 ;; c2) (e1 ++ e2) (w1 ++ w2).
Proof.
  intros H1 H2 self Hd. unfold bind. rewrite (H1 self Hd).
  rewrite (H2 (reports self e1 w1)) by exact Hd.
  now rewrite reports_reports.
Qed.

Lemma emits_when (dir : Path) (b : bool) (c : M unit) (es ws : list string) :
  emits dir c es ws ->
  emits dir (when b c) (if b then es else []) (if b then ws else []).
Proof.
  intros Hc. destruct b; [exact Hc | apply emits_ret].
Qed.

Lemma emits_get (dir : Path) (k : t Path -> M unit) (es ws : list string) :
  (forall self, skill_dir self = dir -> emits dir (k self) es ws) ->
  emits dir (let* self := get in k self) es ws.
Proof.
  intros Hk self Hd. unfold bind, get. now apply Hk.
Qed.

Lemma emits_for_each {A : Type} (dir : Path) (l : list A) (body : A -> M unit)
      (E W : A -> list string) :
  (forall x, emits dir (body x) (E x) (W x)) ->
  emits dir (for_each l body) (flat_map E l) (flat_map W l).
Proof.
  intros Hb. induction l as [|x l IH]; cbn [for_each flat_map].
  - apply emits_ret.
  - apply emits_seq; [apply Hb | exact IH].
Qed.

End Reports.

(** Reduce a rule table to the conditionals the code runs, then decide
    each condition. *)
Ltac by_cases_on_rules :=
  repeat (cbn [List.filter map fst snd app flat_map Rules.fired];
          match goal with
          | |- context [if ?b then _ else _] => destruct b
          end);
  cbn [List.filter map fst snd app flat_map Rules.fired];
  reflexivity.

Section Fields.
Context {Path : Type} `{FileSystem Path}.

Import SkillValidator.
Local Open Scope state_scope.

Lemma emits_validate_name (dir : Path) (name : pyobj) :
  emits dir (_validate_name name)
        (fst (Rules.name_diagnostics (path_name dir) name))
        (snd (Rules.name_diagnostics (path_name dir) name)).
Proof.
  destruct name as [| b | z | r | name | items | d | n];
    try (cbn; apply emits_error).
  unfold _validate_name. apply emits_get. intros self Hd. rewrite Hd.
  eapply emits_conv.
  - repeat first
      [ apply emits_for_each with
          (E := fun reserved =>
                  if Str.contains reserved name
                  then ["Skill name cannot contain reserved word '" +:+ reserved +:+ "'"]
                  else [])
          (W := fun _ => []);
        intros reserved;
        eapply emits_conv;
        [ apply emits_when; apply emits_error
        | reflexivity
        | now destruct (Str.contains reserved name) ]
      | apply emits_seq
      | apply emits_when
      | apply emits_error
      | apply emits_warning ].
  - unfold Rules.name_diagnostics, Rules.name_errors, Rules.reserved_rule, RESERVED_WORDS.
    cbn [fst]. by_cases_on_rules.
  - unfold Rules.name_diagnostics, Rules.name_warnings, RESERVED_WORDS.
    cbn [snd]. by_cases_on_rules.
Qed.

Lemma emits_validate_description (dir : Path) (description : pyobj) :
  emits dir (_validate_description description)
        (fst (Rules.description_diagnostics description))
        (snd (Rules.description_diagnostics description)).
Proof.
  destruct description as [| b | z | r | description | items | d | n];
    try (cbn; apply emits_error).
  unfold _validate_description, Rules.description_diagnostics.
  destruct (String.eqb (Str.strip description) ""); [apply emits_error|].
  eapply emits_conv.
  - repeat first
      [ apply emits_seq | apply emits_when | apply emits_error | apply emits_warning ].
  - unfold Rules.description_errors. cbn [fst]. by_cases_on_rules.
  - unfold Rules.description_warnings. cbn [snd]. by_cases_on_rules.
Qed.

Lemma emits_validate_license (dir : Path) (value : pyobj) :
  emits dir (_validate_license value) (Rules.string_field "license" (Some value)) [].
Proof.
  destruct value; cbn; first [apply emits_ret | apply emits_error].
Qed.

Lemma emits_validate_compatibility (dir : Path) (value : pyobj) :
  emits dir (_validate_compatibility value)
        (Rules.string_field "compatibility" (Some value)) [].
Proof.
  destruct value; cbn; first [apply emits_ret | apply emits_error].
Qed.

Lemma emits_validate_frontmatter (dir : Path) (frontmatter : gmap string pyobj) :
  emits dir (_validate_frontmatter frontmatter)
        (fst (Rules.frontmatter_diagnostics (path_name dir) frontmatter))
        (snd (Rules.frontmatter_diagnostics (path_name dir) frontmatter)).
Proof.
  unfold _validate_frontmatter, Rules.frontmatter_diagnostics.
  destruct (frontmatter !! "name") as [name|]; [|apply emits_error].
  destruct (frontmatter !! "description") as [description|]; [|apply emits_error].
  pose proof (emits_validate_name dir name) as Hn.
  pose proof (emits_validate_description dir description) as Hd.
  destruct (Rules.name_diagnostics (path_name dir) name) as [ne nw].
  destruct (Rules.description_diagnostics description) as [de dw].
  cbn [fst snd] in *.
  eapply emits_conv.
  - apply emits_seq; [exact Hn|].
    apply emits_seq; [exact Hd|].
    apply emits_seq.
    { instantiate (1 := []).
      instantiate (1 := Rules.string_field "license" (frontmatter !! "license")).
      destruct (frontmatter !! "license");
        [apply emits_validate_license | apply emits_ret]. }
    apply emits_seq.
    { instantiate (1 := []).
      instantiate (1 := Rules.string_field "compatibility" (frontmatter !! "compatibility")).
      destruct (frontmatter !! "compatibility");
        [apply emits_validate_compatibility | apply emits_ret]. }
    instantiate (1 := []).
    instantiate (1 := Rules.metadata_field (frontmatter !! "metadata")).
    destruct (frontmatter !! "metadata") as [[]|]; cbn;
      first [apply emits_ret | apply emits_error].
  - reflexivity.
  - cbn [app]. now rewrite !app_nil_r.
Qed.

Lemma flat_map_filter {A B : Type} (p : A -> bool) (f : A -> B) (l : list A) :
  flat_map (fun x => if p x then [f x] else []) l = map f (List.filter p l).
Proof.
  induction l as [|x l IH]; [reflexivity|].
  cbn. destruct (p x); cbn; now rewrite IH.
Qed.

Lemma flat_map_nil {A B : Type} (l : list A) :
  flat_map (fun _ : A => @nil B) l = [].
Proof. now induction l. Qed.

Lemma emits_validate_directory_structure (dir : Path) :
  emits dir _validate_directory_structure (structure_errors dir) [].
Proof.
  unfold _validate_directory_structure. apply emits_get. intros self Hd. rewrite Hd.
  eapply emits_conv.
  - apply emits_for_each with
      (E := fun item =>
              if is_dir item && bool_decide (path_name item ∉ ALLOWED_SKILL_DIRS)
              then [unexpected_directory (path_name item)] else [])
      (W := fun _ => []).
    intros item. eapply emits_conv; [apply emits_when; apply emits_error | reflexivity |].
    now destruct (is_dir item && _).
  - unfold structure_errors, disallowed_subdirectories.
    apply (flat_map_filter
             (fun item => is_dir item && bool_decide (path_name item ∉ ALLOWED_SKILL_DIRS))
             (fun item => unexpected_directory (path_name item))).
  - apply flat_map_nil.
Qed.

Lemma emits_validate_content (dir : Path) (body : string) :
  emits dir (_validate_content body) [] (content_warnings dir body).
Proof.
  unfold _validate_content. apply emits_get. intros self Hd. rewrite Hd.
  eapply emits_conv.
  - apply emits_seq; [apply emits_when; apply emits_warning|].
    apply emits_for_each with
      (E := fun _ => [])
      (W := fun line => flat_map (link_warning dir) (Re.findall_links line)).
    intros line.
    apply emits_conv with
      (es := flat_map (fun _ : string * string => []) (Re.findall_links line))
      (ws := flat_map (link_warning dir) (Re.findall_links line));
      [| apply flat_map_nil | reflexivity].
    apply emits_for_each with (E := fun _ => []) (W := link_warning dir).
    intros [link_text link_path]. unfold link_warning. cbn [snd].
    destruct (negb (any _ url_prefixes)); cbn [when andb]; [|apply emits_ret].
    eapply emits_conv; [apply emits_when; apply emits_warning | |];
      now destruct (negb (path_exists _)).
  - rewrite !flat_map_nil.
    now destruct (MAX_SKILL_LINES <? _)%nat.
  - unfold content_warnings. reflexivity.
Qed.

End Fields.

(** ** One skill *)

Section Skill.
Context {Path : Type} `{FileSystem Path}.
Variable safe_load : yaml_loader.

Import SkillValidator.
Local Open Scope state_scope.

Lemma fired_Forall (P : string -> Prop) (table : list Rules.rule) :
  Forall (fun r => P (snd r)) table -> Forall P (Rules.fired table).
Proof.
  unfold Rules.fired. induction 1 as [|[b m] table Hm _ IH]; cbn; [constructor|].
  destruct b; cbn; [constructor|]; assumption.
Qed.

Lemma name_diagnostics_not_structural (dir_name : string) (name : pyobj) :
  Forall not_structural (fst (Rules.name_diagnostics dir_name name)).
Proof.
  destruct name; cbn [Rules.name_diagnostics fst];
    try (repeat constructor; reflexivity).
  apply fired_Forall. unfold Rules.name_errors, RESERVED_WORDS.
  repeat constructor; reflexivity.
Qed.

Lemma description_diagnostics_not_structural (description : pyobj) :
  Forall not_structural (fst (Rules.description_diagnostics description)).
Proof.
  destruct description as [| | | | d | | |]; cbn [Rules.description_diagnostics fst];
    try (repeat constructor; reflexivity).
  destruct (String.eqb (Str.strip d) ""); cbn [fst].
  - repeat constructor; reflexivity.
  - apply fired_Forall. repeat constructor; reflexivity.
Qed.

Lemma frontmatter_diagnostics_not_structural (dir_name : string)
      (frontmatter : gmap string pyobj) :
  Forall not_structural (fst (Rules.frontmatter_diagnostics dir_name frontmatter)).
Proof.
  unfold Rules.frontmatter_diagnostics.
  destruct (frontmatter !! "name") as [name|]; [|repeat constructor; reflexivity].
  destruct (frontmatter !! "description") as [description|];
    [|repeat constructor; reflexivity].
  pose proof (name_diagnostics_not_structural dir_name name) as Hn.
  pose proof (description_diagnostics_not_structural description) as Hd.
  destruct (Rules.name_diagnostics dir_name name) as [ne nw].
  destruct (Rules.description_diagnostics description) as [de dw].
  cbn [fst] in *.
  repeat (apply Forall_app; split); try assumption.
  - destruct (frontmatter !! "license") as [[]|]; repeat constructor; reflexivity.
  - destruct (frontmatter !! "compatibility") as [[]|]; repeat constructor; reflexivity.
  - destruct (frontmatter !! "metadata") as [[]|]; repeat constructor; reflexivity.
Qed.

(** [_parse_skill_md] reports nothing when it returns a mapping, and one
    error, which is not a structure error, when it returns [None]. *)
Lemma parse_skill_md_reports (self : t Path) :
  exists es,
    snd (_parse_skill_md safe_load self) = reports self es []
    /\ match fst (fst (_parse_skill_md safe_load self)) with
       | Some _ => es = []
       | None => exists m, es = [m] /\ not_structural m
       end.
Proof.
  unfold _parse_skill_md, bind, get.
  destruct (read_text (skill_md self)) as [content|e].
  2:{ rewrite (emits_error (skill_dir self) _ self eq_refl). cbn.
      eexists; split; [reflexivity|]. eexists; split; reflexivity. }
  destruct (negb (Str.startswith content _)).
  { rewrite (emits_error (skill_dir self) _ self eq_refl). cbn.
    eexists; split; [reflexivity|]. eexists; split; reflexivity. }
  destruct (Str.find content _ 4) as [end_delimiter|].
  2:{ rewrite (emits_error (skill_dir self) _ self eq_refl). cbn.
      eexists; split; [reflexivity|]. eexists; split; reflexivity. }
  destruct (safe_load _) as [[]|e];
    try (rewrite (emits_error (skill_dir self) _ self eq_refl); cbn;
         eexists; split; [reflexivity|]; eexists; split; reflexivity).
  cbn. exists []. now rewrite reports_nil.
Qed.

(** The three ways [validate] ends. *)
Lemma validate_missing (self : t Path) :
  path_exists (skill_md self) = false ->
  snd (validate safe_load self)
  = reports self ["Missing required SKILL.md file in " +:+ path_str (skill_dir self)] [].
Proof.
  intros Hmd. unfold validate, bind, get. rewrite Hmd. cbn [negb].
  now rewrite (emits_error (skill_dir self) _ self eq_refl).
Qed.

Lemma validate_unparsed (self : t Path) :
  path_exists (skill_md self) = true ->
  fst (fst (_parse_skill_md safe_load self)) = None ->
  snd (validate safe_load self) = snd (_parse_skill_md safe_load self).
Proof.
  intros Hmd Hfm. unfold validate, bind, get. rewrite Hmd. cbn [negb].
  destruct (_parse_skill_md safe_load self) as [[fm body] s1]. cbn in Hfm.
  now subst fm.
Qed.

Lemma validate_parsed (self : t Path) (frontmatter : gmap string pyobj) :
  path_exists (skill_md self) = true ->
  fst (fst (_parse_skill_md safe_load self)) = Some frontmatter ->
  let body := snd (fst (_parse_skill_md safe_load self)) in
  let d := Rules.frontmatter_diagnostics (path_name (skill_dir self)) frontmatter in
  snd (validate safe_load self)
  = reports self (structure_errors (skill_dir self) ++ fst d)
                 (snd d ++ content_warnings (skill_dir self) body).
Proof.
  intros Hmd Hfm. unfold validate, bind, get. rewrite Hmd. cbn [negb].
  destruct (parse_skill_md_reports self) as (es & Hs1 & Hes). rewrite Hfm in Hes.
  destruct (_parse_skill_md safe_load self) as [[fm body] s1]. cbn [fst snd] in *.
  subst fm es. rewrite reports_nil in Hs1. subst s1.
  pose proof (emits_seq _ _ _ _ _ _ _
                (emits_validate_directory_structure (skill_dir self))
                (emits_seq _ _ _ _ _ _ _
                   (emits_validate_frontmatter (skill_dir self) frontmatter)
                   (emits_validate_content (skill_dir self) body))) as Hrun.
  specialize (Hrun self eq_refl). unfold bind in Hrun.
  destruct (_validate_directory_structure self) as [[] s2].
  destruct (_validate_frontmatter frontmatter s2) as [[] s3].
  destruct (_validate_content body s3) as [[] s4].
  injection Hrun as ->. cbn [app snd result bind get ret]. now rewrite app_nil_r.
Qed.

(** [validate] returns the two lists of the validator it leaves behind. *)
Lemma validate_returns (self : t Path) :
  fst (validate safe_load self)
  = (errors (snd (validate safe_load self)), warnings (snd (validate safe_load self))).
Proof.
  unfold validate, bind, get, result, ret.
  destruct (negb (path_exists (skill_md self))).
  - now destruct (error _ None self).
  - destruct (_parse_skill_md safe_load self) as [[[fm|] body] s1]; [|reflexivity].
    destruct (_validate_directory_structure s1) as [[] s2].
    destruct (_validate_frontmatter fm s2) as [[] s3].
    now destruct (_validate_content body s3).
Qed.

End Skill.

(** ** Structure check and frontmatter parsing *)

Section StructureAndParsing.
Context {Path : Type} `{FileSystem Path}.
Variable safe_load : yaml_loader.

Import SkillValidator.

Lemma filter_keeps_all {A : Type} (p : A -> bool) (l : list A) :
  Forall (fun x => p x = true) l -> List.filter p l = l.
Proof.
  induction 1 as [|x l Hx _ IH]; cbn; [reflexivity|]. now rewrite Hx, IH.
Qed.

Lemma filter_drops_all {A : Type} (p : A -> bool) (l : list A) :
  Forall (fun x => p x = false) l -> List.filter p l = [].
Proof.
  induction 1 as [|x l Hx _ IH]; cbn; [reflexivity|]. now rewrite Hx.
Qed.

Lemma structure_errors_structural (skill_dir : Path) :
  Forall (fun m => Str.startswith m "Unexpected directory '" = true)
         (structure_errors skill_dir).
Proof.
  unfold structure_errors. apply Forall_map, Forall_forall. reflexivity.
Qed.

Lemma errors_of_fresh (skill_dir : Path) (es ws : list string) :
  errors (reports (__init__ skill_dir) es ws) = map (error_at skill_dir) es.
Proof. reflexivity. Qed.

Lemma warnings_of_fresh (skill_dir : Path) (es ws : list string) :
  warnings (reports (__init__ skill_dir) es ws) = map (warning_at skill_dir) ws.
Proof. reflexivity. Qed.

Lemma filter_structural_map (skill_dir : Path) (l : list string) :
  List.filter is_structural_error (map (error_at skill_dir) l)
  = map (error_at skill_dir)
        (List.filter (fun m => Str.startswith m "Unexpected directory '") l).
Proof.
  induction l as [|m l IH]; [reflexivity|].
  cbn [map List.filter]. rewrite IH.
  change (is_structural_error (error_at skill_dir m))
    with (Str.startswith m "Unexpected directory '").
  now destruct (Str.startswith m _).
Qed.

(** C1, amended.  The structure errors among the errors of a skill are
    one per disallowed subdirectory when [SKILL.md] exists and its
    frontmatter parsed to a mapping, and none at all when the file is
    missing or its frontmatter did not parse: the structure check runs
    after a successful parse only. *)
Theorem structure_errors_need_parsed_frontmatter (skill_dir : Path) :
  List.filter is_structural_error (fst (fst (validate safe_load (__init__ skill_dir))))
  = match parsed_frontmatter safe_load skill_dir with
    | Some _ => map (error_at skill_dir) (structure_errors skill_dir)
    | None => []
    end.
Proof.
  rewrite validate_returns. cbn [fst]. unfold parsed_frontmatter.
  destruct (path_exists (skill_md (__init__ skill_dir))) eqn:Hmd.
  - destruct (fst (fst (_parse_skill_md safe_load (__init__ skill_dir))))
      as [frontmatter|] eqn:Hfm.
    + rewrite (validate_parsed safe_load _ frontmatter Hmd Hfm).
      rewrite errors_of_fresh, filter_structural_map, List.filter_app.
      rewrite (filter_keeps_all _ _ (structure_errors_structural _)).
      rewrite (filter_drops_all _ _ (frontmatter_diagnostics_not_structural _ _)).
      now rewrite app_nil_r.
    + rewrite (validate_unparsed safe_load _ Hmd Hfm).
      destruct (parse_skill_md_reports safe_load (__init__ skill_dir))
        as (es & -> & Hes).
      rewrite Hfm in Hes. destruct Hes as (m & -> & Hm).
      rewrite errors_of_fresh, filter_structural_map. cbn [List.filter].
      unfold not_structural in Hm. now rewrite Hm.
  - rewrite (validate_missing safe_load _ Hmd).
    now rewrite errors_of_fresh, filter_structural_map.
Qed.

(** C4.  A [SKILL.md] whose text does not start with the opening delimiter
    line yields exactly one error and no warning: no field is checked. *)
Theorem missing_opening_delimiter_is_the_only_error (skill_dir : Path) (content : string) :
  path_exists (joinpath skill_dir "SKILL.md") = true ->
  read_text (joinpath skill_dir "SKILL.md") = inl content ->
  Str.startswith content ("---" +:+ Str.NL) = false ->
  fst (validate safe_load (__init__ skill_dir))
  = ([error_at skill_dir "SKILL.md must start with YAML frontmatter (---)"], []).
Proof.
  intros Hmd Hread Hstart.
  unfold validate, _parse_skill_md, bind, get. cbn [skill_md __init__].
  rewrite Hmd. cbn [negb].
  change (skill_md (__init__ skill_dir)) with (joinpath skill_dir "SKILL.md").
  rewrite Hread, Hstart. reflexivity.
Qed.

End StructureAndParsing.

(** C1, as stated, fails: a skill whose [SKILL.md] has no frontmatter and
    that holds the disallowed directory [extra] gets the frontmatter error
    alone. *)
Lemma structure_error_lost_without_frontmatter :
  @disallowed_subdirectories _ (Tree.file_system Demo.no_frontmatter) ["broken"]
  = [["broken"; "extra"]]
  /\ fst (Demo.validate_skill Demo.no_frontmatter ["broken"])
     = [mkValidationError "error" "SKILL.md must start with YAML frontmatter (---)"
          (Some ["broken"; "SKILL.md"])]
  /\ length (List.filter (@is_structural_error (list string))
                         (fst (Demo.validate_skill Demo.no_frontmatter ["broken"])))
     <> length (@disallowed_subdirectories _ (Tree.file_system Demo.no_frontmatter)
                  ["broken"]).
Proof.
  split; [|split]; [vm_compute; reflexivity ..|].
  vm_compute. discriminate.
Qed.

Lemma missing_opening_delimiter_witness :
  Demo.validate_skill Demo.no_frontmatter ["broken"]
  = ([mkValidationError "error" "SKILL.md must start with YAML frontmatter (---)"
        (Some ["broken"; "SKILL.md"])], []).
Proof.
  apply (@missing_opening_delimiter_is_the_only_error
           _ (Tree.file_system Demo.no_frontmatter) FlatYaml.safe_load
           ["broken"] "# No frontmatter here");
    reflexivity.
Defined.

(** C9 on the code.  The last line of the file is the closing delimiter,
    with no newline after it; the parser looks for the delimiter followed
    by a newline, finds none and reports the frontmatter as not closed. *)
Theorem closing_delimiter_on_last_line_not_found :
  List.last (Str.split "010" Demo.unterminated_md) "" = "---"
  /\ Str.find Demo.unterminated_md (Str.NL +:+ "---" +:+ Str.NL) 4 = None
  /\ Demo.validate_skill Demo.unterminated ["foo-bar"]
     = ([mkValidationError "error"
           "SKILL.md frontmatter not properly closed (missing closing ---)"
           (Some ["foo-bar"; "SKILL.md"])], []).
Proof.
  repeat split; vm_compute; reflexivity.
Qed.

(** ** Field validation *)

Section FieldClaims.
Context {Path : Type} `{FileSystem Path}.
Variable safe_load : yaml_loader.

Import SkillValidator.

Lemma run_emits (dir : Path) (c : M unit) (es ws : list string) (self : t Path) :
  emits dir c es ws -> skill_dir self = dir -> snd (c self) = reports self es ws.
Proof. intros Hc Hd. now rewrite (Hc self Hd). Qed.

(** C2, amended.  When one of the two mandatory fields is missing, its
    absence is the one diagnostic of the frontmatter: the field that is
    present is not checked, and neither are the optional fields. *)
Theorem missing_mandatory_field_ends_frontmatter_checks
        (self : t Path) (frontmatter : gmap string pyobj) :
  (frontmatter !! "name" = None /\ frontmatter !! "description" <> None)
  \/ (frontmatter !! "name" <> None /\ frontmatter !! "description" = None) ->
  snd (_validate_frontmatter frontmatter self)
  = reports self
      [Rules.missing_field
         match frontmatter !! "name" with None => "name" | Some _ => "description" end]
      [].
Proof.
  intros Hmissing.
  rewrite (run_emits _ _ _ _ self
             (emits_validate_frontmatter (skill_dir self) frontmatter) eq_refl).
  unfold Rules.frontmatter_diagnostics.
  destruct (frontmatter !! "name") as [name|], (frontmatter !! "description") as [d|];
    try reflexivity.
  destruct Hmissing as [[Hn _]|[_ Hd]]; congruence.
Qed.

(** C3, amended.  Every rule of a name that is a string is evaluated, and
    so is every rule of a description that is a string with something left
    after trimming; a description that is empty after trimming gets the
    one error for that and none of the remaining description rules. *)
Theorem field_rules_are_additive_but_for_empty_description
        (self : t Path) (name description : string) :
  snd (_validate_name (PyStr name) self)
  = reports self (Rules.fired (Rules.name_errors (path_name (skill_dir self)) name))
                 (Rules.fired (Rules.name_warnings name))
  /\ snd (_validate_description (PyStr description) self)
     = if String.eqb (Str.strip description) ""
       then reports self [Rules.description_empty] []
       else reports self (Rules.fired (Rules.description_errors description))
                         (Rules.fired (Rules.description_warnings description)).
Proof.
  split.
  - exact (run_emits _ _ _ _ self
             (emits_validate_name (skill_dir self) (PyStr name)) eq_refl).
  - rewrite (run_emits _ _ _ _ self
               (emits_validate_description (skill_dir self) (PyStr description)) eq_refl).
    cbn [Rules.description_diagnostics].
    now destruct (String.eqb (Str.strip description) "").
Qed.

(** C5.  A name that matches the pattern, is at most 64 characters long,
    holds no reserved word and no angle bracket, and equals the name of
    its directory gets no error. *)
Theorem well_formed_name_has_no_error (self : t Path) (name : string) :
  Re.match_name name = true ->
  (String.length name <= MAX_NAME_LENGTH)%nat ->
  (forall reserved, In reserved RESERVED_WORDS -> Str.contains reserved name = false) ->
  Str.contains "<" name = false ->
  Str.contains ">" name = false ->
  name = path_name (skill_dir self) ->
  errors (snd (_validate_name (PyStr name) self)) = errors self.
Proof.
  intros Hmatch Hlen Hreserved Hlt Hgt Hdir.
  rewrite (run_emits _ _ _ _ self
             (emits_validate_name (skill_dir self) (PyStr name)) eq_refl).
  cbn [Rules.name_diagnostics fst snd].
  unfold Rules.name_errors, Rules.reserved_rule, RESERVED_WORDS.
  cbn [map app].
  rewrite Hmatch, Hlt, Hgt, <- Hdir, String.eqb_refl.
  rewrite (Hreserved "anthropic"), (Hreserved "claude")
    by (unfold RESERVED_WORDS; cbn; tauto).
  apply Nat.ltb_ge in Hlen. rewrite Hlen.
  unfold reports. cbn. now rewrite app_nil_r.
Qed.

End FieldClaims.

(** C2, as stated, fails: with [name] missing, the description that is
    present, and empty, is not checked. *)
Lemma present_field_unchecked_when_other_is_missing :
  fst (Rules.description_diagnostics (PyStr "")) = [Rules.description_empty]
  /\ SkillValidator.errors
       (Demo.check_frontmatter Demo.repository ["domain"; "foo-bar"] Demo.only_description)
     = [mkValidationError "error" (Rules.missing_field "name")
          (Some ["domain"; "foo-bar"; "SKILL.md"])]
  /\ ~ In (mkValidationError "error" Rules.description_empty
             (Some ["domain"; "foo-bar"; "SKILL.md"]))
          (SkillValidator.errors
             (Demo.check_frontmatter Demo.repository ["domain"; "foo-bar"]
                Demo.only_description)).
Proof.
  split; [|split]; [vm_compute; reflexivity ..|].
  vm_compute. intros [Heq|[]]. discriminate Heq.
Qed.

Lemma missing_mandatory_field_witness :
  Demo.check_frontmatter Demo.repository ["domain"; "foo-bar"] Demo.only_name
  = reports (@SkillValidator.__init__ _ (Tree.file_system Demo.repository)
               ["domain"; "foo-bar"])
            [Rules.missing_field "description"] [].
Proof.
  apply (@missing_mandatory_field_ends_frontmatter_checks
           _ (Tree.file_system Demo.repository)
           (@SkillValidator.__init__ _ (Tree.file_system Demo.repository)
              ["domain"; "foo-bar"])
           Demo.only_name).
  right. split; [discriminate | reflexivity].
Defined.

(** C3, as stated, fails: the empty description violates the trigger and
    the sentence rules, and neither warning is reported. *)
Lemma empty_description_skips_remaining_rules :
  Rules.fired (Rules.description_warnings "")
  = [ "Description should include clear 'when to use' triggers (e.g., 'Use when...', 'For...')";
      "Description should include both WHAT the skill does and WHEN to use it (at least 2 sentences recommended)" ]
  /\ SkillValidator.warnings
       (Demo.check_description Demo.repository ["domain"; "foo-bar"] (PyStr ""))
     = [].
Proof.
  split; vm_compute; reflexivity.
Qed.

Lemma well_formed_name_witness :
  SkillValidator.errors
    (Demo.check_name Demo.repository ["domain"; "foo-bar"] (PyStr "foo-bar"))
  = [].
Proof.
  apply (@well_formed_name_has_no_error
           _ (Tree.file_system Demo.repository)
           (@SkillValidator.__init__ _ (Tree.file_system Demo.repository)
              ["domain"; "foo-bar"])
           "foo-bar");
    try reflexivity.
  - unfold MAX_NAME_LENGTH. cbn. lia.
  - intros reserved [<-|[<-|[]]]; reflexivity.
Defined.

(** ** The [foo-bar] scenario *)

Section Scenario.
Context {Path : Type} `{FileSystem Path}.
Variable safe_load : yaml_loader.

Import SkillValidator.

(** A [SKILL.md] made of the [foo-bar] frontmatter and any body splits at
    the closing delimiter. *)
Lemma foo_bar_md_splits (body : string) :
  let content := Demo.lines ["---"; Demo.foo_bar_frontmatter; "---"; body] in
  let end_delimiter := 4 + String.length Demo.foo_bar_frontmatter in
  Str.startswith content ("---" +:+ Str.NL) = true
  /\ Str.find content (Str.NL +:+ "---" +:+ Str.NL) 4 = Some end_delimiter
  /\ Str.slice 4 end_delimiter content = Demo.foo_bar_frontmatter
  /\ Str.drop (end_delimiter + 5) content = body.
Proof.
  repeat split; vm_compute; reflexivity.
Qed.

Lemma no_links_no_warning (dir : Path) (lines : list string) :
  Forall (fun line => Re.findall_links line = []) lines ->
  flat_map (fun line => flat_map (link_warning dir) (Re.findall_links line)) lines = [].
Proof.
  induction 1 as [|line lines Hline _ IH]; [reflexivity|].
  cbn [flat_map]. now rewrite Hline, IH.
Qed.

(** C6.  The skill directory [foo-bar], with the frontmatter [name:
    foo-bar] and [description: "Use when the user needs X."], no
    subdirectory and a body of ten lines without links, gets no error and
    one warning: the gerund nudge on its name. *)
Theorem foo_bar_gets_the_gerund_warning_only (skill_dir : Path) (body : string) :
  path_name skill_dir = "foo-bar" ->
  path_exists (joinpath skill_dir "SKILL.md") = true ->
  read_text (joinpath skill_dir "SKILL.md")
  = inl (Demo.lines ["---"; Demo.foo_bar_frontmatter; "---"; body]) ->
  safe_load Demo.foo_bar_frontmatter = inl (PyDict Demo.foo_bar_mapping) ->
  Forall (fun item => is_dir item = false) (iterdir skill_dir) ->
  length (Str.split "010" body) = 10 ->
  no_links body ->
  fst (validate safe_load (__init__ skill_dir))
  = ([], [warning_at skill_dir
            "Consider using gerund form (verb-ing) for skill name: 'foo-bar' → 'foo-baring' or 'analyzing-foo-bar'"]).
Proof.
  intros Hname Hmd Hread Hload Hfiles Hlen Hlinks.
  destruct (foo_bar_md_splits body) as (Hstart & Hfind & Hslice & Hdrop).
  assert (Hparse : _parse_skill_md safe_load (__init__ skill_dir)
                   = ((Some Demo.foo_bar_mapping, body), __init__ skill_dir)).
  { unfold _parse_skill_md, bind, get.
    change (skill_md (__init__ skill_dir)) with (joinpath skill_dir "SKILL.md").
    rewrite Hread, Hstart. cbn [negb]. rewrite Hfind, Hslice, Hdrop, Hload.
    reflexivity. }
  rewrite validate_returns.
  rewrite (validate_parsed safe_load (__init__ skill_dir) Demo.foo_bar_mapping Hmd)
    by now rewrite Hparse.
  rewrite Hparse. cbn [fst snd].
  rewrite errors_of_fresh, warnings_of_fresh.
  change (SkillValidator.skill_dir (__init__ skill_dir)) with skill_dir. rewrite Hname.
  assert (Hstructure : structure_errors skill_dir = []).
  { unfold structure_errors, disallowed_subdirectories.
    rewrite filter_drops_all; [reflexivity|].
    eapply Forall_impl; [exact Hfiles|]. intros item Hitem. cbn beta.
    now rewrite Hitem. }
  assert (Hcontent : content_warnings skill_dir body = []).
  { unfold content_warnings. rewrite Hlen, (no_links_no_warning _ _ Hlinks).
    reflexivity. }
  rewrite Hstructure, Hcontent.
  assert (Hfields : Rules.frontmatter_diagnostics "foo-bar" Demo.foo_bar_mapping
                    = ([], ["Consider using gerund form (verb-ing) for skill name: 'foo-bar' → 'foo-baring' or 'analyzing-foo-bar'"]))
    by (vm_compute; reflexivity).
  rewrite Hfields. reflexivity.
Qed.

End Scenario.

Lemma foo_bar_scenario_witness :
  Demo.validate_skill Demo.repository ["domain"; "foo-bar"]
  = ([], [mkValidationError "warning"
            "Consider using gerund form (verb-ing) for skill name: 'foo-bar' → 'foo-baring' or 'analyzing-foo-bar'"
            (Some ["domain"; "foo-bar"; "SKILL.md"])]).
Proof.
  apply (@foo_bar_gets_the_gerund_warning_only
           _ (Tree.file_system Demo.repository) FlatYaml.safe_load
           ["domain"; "foo-bar"] Demo.ten_lines);
    try (vm_compute; reflexivity).
  - repeat constructor.
  - repeat constructor.
Defined.

(** ** Discovery *)

Section Discovery.
Context {Path : Type} `{FileSystem Path}.

Import RepositoryValidator.

Lemma scan_domain_spec (domain_dir d : Path) (skill_dirs : list Path) :
  In d (scan_domain skill_dirs domain_dir) <-> In d skill_dirs \/ skill_in domain_dir d.
Proof.
  unfold scan_domain, skill_in.
  revert skill_dirs. induction (iterdir domain_dir) as [|p l IH]; intros skill_dirs.
  - cbn. tauto.
  - cbn [fold_left]. rewrite IH. clear IH. cbn [In].
    destruct (is_dir p) eqn:Hdir; cbn [negb];
      [destruct (hidden p) eqn:Hhid;
       [|destruct (path_exists (joinpath p "SKILL.md")) eqn:Hmd]|];
      rewrite ?in_app_iff; cbn [In];
      split; intros Hd;
      repeat match goal with
             | H : _ \/ _ |- _ => destruct H
             | H : _ /\ _ |- _ => destruct H
             | H : False |- _ => destruct H
             end;
      subst; try congruence; tauto.
Qed.

Lemma find_in_domains_spec (domains skill_dirs : list Path) (d : Path) :
  In d (fold_left (fun (skill_dirs : list Path) (domain_dir : Path) =>
                     if negb (is_dir domain_dir) then skill_dirs
                     else if hidden domain_dir then skill_dirs
                     else scan_domain skill_dirs domain_dir)
                  domains skill_dirs)
  <-> In d skill_dirs
      \/ exists domain_dir,
           In domain_dir domains /\ is_dir domain_dir = true
           /\ hidden domain_dir = false /\ skill_in domain_dir d.
Proof.
  revert skill_dirs. induction domains as [|p l IH]; intros skill_dirs.
  - cbn. split; [tauto|]. intros [Hd|(x & [] & _)]. exact Hd.
  - cbn [fold_left]. rewrite IH. clear IH.
    destruct (is_dir p) eqn:Hdir; cbn [negb]; [destruct (hidden p) eqn:Hhid|];
      rewrite ?scan_domain_spec; split;
      (intros [Hd|Hd];
       [ try destruct Hd as [Hd|Hd]; eauto 8 using in_eq
       | destruct Hd as (x & Hx & Hrest) ]);
      try (right; exists x; split; [now right | exact Hrest]);
      try (destruct Hx as [->|Hx];
           [ destruct Hrest as (Hxd & Hxh & Hskill); try congruence; tauto
           | right; exists x; tauto ]).
Qed.

(** The generic form of C8: with [SKILL.md] in the root the root is the
    one skill; otherwise the skills are the visible directories holding
    [SKILL.md] inside the visible directories of the root. *)
Lemma find_skill_directories_spec (self : t Path) :
  if path_exists (joinpath (skills_dir self) "SKILL.md")
  then _find_skill_directories self = [skills_dir self]
  else forall d,
         In d (_find_skill_directories self)
         <-> exists domain_dir,
               In domain_dir (iterdir (skills_dir self)) /\ is_dir domain_dir = true
               /\ hidden domain_dir = false /\ skill_in domain_dir d.
Proof.
  unfold _find_skill_directories.
  destruct (path_exists (joinpath (skills_dir self) "SKILL.md")); [reflexivity|].
  intros d. rewrite find_in_domains_spec. cbn [In]. tauto.
Qed.

End Discovery.

(** In a tree, the entries of a directory lie one name below it. *)
Lemma tree_iterdir_child (root : Tree.node) (p q : list string) :
  In q (@iterdir _ (Tree.file_system root) p) -> exists name, q = (p ++ [name])%list.
Proof.
  cbn. destruct (Tree.lookup root p) as [[content|entries]|]; cbn; try tauto.
  rewrite in_map_iff. intros ((name & x) & <- & _). now exists name.
Qed.

(** C8.  Discovery has two levels.  A root holding [SKILL.md] is the one
    skill found.  Otherwise a directory is found exactly when it is a
    visible directory, holding [SKILL.md], inside a visible directory of
    the root; in a directory tree such a path lies two names below the
    root, so that a [SKILL.md] nested deeper is not found. *)
Theorem discovery_is_two_level :
  (forall (Path : Type) (fs : FileSystem Path) (self : RepositoryValidator.t Path),
      if path_exists (joinpath (RepositoryValidator.skills_dir self) "SKILL.md")
      then RepositoryValidator._find_skill_directories self
           = [RepositoryValidator.skills_dir self]
      else forall d,
             In d (RepositoryValidator._find_skill_directories self)
             <-> exists domain_dir,
                   In domain_dir (iterdir (RepositoryValidator.skills_dir self))
                   /\ is_dir domain_dir = true
                   /\ RepositoryValidator.hidden domain_dir = false
                   /\ skill_in domain_dir d)
  /\ (forall (root : Tree.node) (skills_dir d : list string),
         In d (Demo.find_skills root skills_dir) ->
         d = skills_dir \/ exists domain skill, d = (skills_dir ++ [domain; skill])%list)
  /\ Demo.find_skills Demo.too_deep [] = [].
Proof.
  split; [|split].
  - intros Path fs self. apply find_skill_directories_spec.
  - intros root skills_dir d Hd. unfold Demo.find_skills in Hd.
    pose proof (@find_skill_directories_spec _ (Tree.file_system root)
                  (RepositoryValidator.__init__ skills_dir)) as Hspec.
    destruct (@path_exists _ (Tree.file_system root)
                (@joinpath _ (Tree.file_system root)
                   (RepositoryValidator.skills_dir
                      (RepositoryValidator.__init__ skills_dir)) "SKILL.md")).
    + rewrite Hspec in Hd. destruct Hd as [<-|[]]. now left.
    + apply Hspec in Hd. destruct Hd as (domain_dir & Hdom & _ & _ & Hd & _).
      apply tree_iterdir_child in Hdom. destruct Hdom as (domain & ->).
      apply tree_iterdir_child in Hd. destruct Hd as (skill & ->).
      right. exists domain, skill. now rewrite <- app_assoc.
  - vm_compute. reflexivity.
Qed.

Lemma discovery_is_two_level_witness :
  ["domain"; "foo-bar"] = []
  \/ exists domain skill, ["domain"; "foo-bar"] = ([] ++ [domain; skill])%list.
Proof.
  apply (proj1 (proj2 discovery_is_two_level) Demo.repository [] ["domain"; "foo-bar"]).
  vm_compute. now left.
Defined.

(** ** [main]: exit code and rendering *)

Section MainClaims.
Context {Path : Type} `{FileSystem Path}.
Variable safe_load : yaml_loader.

(** C7.  [main] returns 0 exactly when there is no error and either no
    warning or no [--strict]; it returns 1 exactly when there is an error,
    or [--strict] is set and there is a warning. *)
Theorem exit_code_of_main (args : Namespace Path) (sys_argv : list string) :
  let diagnostics :=
    RepositoryValidator.validate safe_load (RepositoryValidator.__init__ (path args)) in
  (snd (main safe_load args sys_argv) = 0%Z
   <-> fst diagnostics = [] /\ (snd diagnostics = [] \/ strict args = false))
  /\ (snd (main safe_load args sys_argv) = 1%Z
      <-> fst diagnostics <> [] \/ (strict args = true /\ snd diagnostics <> [])).
Proof.
  unfold main.
  destruct (RepositoryValidator.validate safe_load _) as [errors warnings].
  cbn [fst snd].
  destruct errors as [|e errors], warnings as [|w warnings], (strict args);
    cbn; (split; split; intros Hx);
    repeat match goal with
           | H : _ /\ _ |- _ => destruct H
           | H : _ \/ _ |- _ => destruct H
           end;
    try congruence; try discriminate; auto;
    try (split; [reflexivity | auto]);
    try (left; discriminate);
    try (right; split; [reflexivity | discriminate]).
Qed.

Lemma is_github_actions_spec (args : Namespace Path) (sys_argv : list string) :
  is_github_actions args sys_argv = true
  <-> github args = true \/ In "GITHUB_ACTIONS" sys_argv.
Proof.
  unfold is_github_actions.
  rewrite orb_true_iff, bool_decide_eq_true, list_elem_of_In. reflexivity.
Qed.

Lemma github_line_starts_with_colon (d : ValidationError Path) :
  first_char (format_for_github d) = Some ":"%char.
Proof. unfold format_for_github. now destruct (file_path d). Qed.

Lemma terminal_line_starts_with_escape (d : ValidationError Path) :
  first_char (format_for_terminal d) = Some (ascii_of_nat 27).
Proof.
  unfold format_for_terminal.
  now destruct (String.eqb (level d) "error"), (file_path d).
Qed.

(** Without the CI format no printed line is a CI annotation. *)
Lemma terminal_output_has_no_annotation
      (errors warnings : list (ValidationError Path)) (tail : list string)
      (d : ValidationError Path) :
  Forall (fun line => first_char line = Some "010"%char) tail ->
  ~ In (format_for_github d)
       ((if truthy errors
         then errors_header (length errors) :: map (print_diagnostic false) errors
         else [])
        ++ (if truthy warnings
            then warnings_header (length warnings) :: map (print_diagnostic false) warnings
            else [])
        ++ tail).
Proof.
  intros Htail Hin.
  assert (Hmap : forall l, ~ In (format_for_github d) (map (print_diagnostic false) l)).
  { intros l Hl. apply in_map_iff in Hl. destruct Hl as (e & Heq & _).
    apply (f_equal first_char) in Heq. cbn [print_diagnostic] in Heq.
    rewrite github_line_starts_with_colon, terminal_line_starts_with_escape in Heq.
    discriminate Heq. }
  pose proof (github_line_starts_with_colon d) as Hcolon.
  rewrite !in_app_iff in Hin. destruct Hin as [Hin|[Hin|Hin]].
  - destruct (truthy errors); [|exact Hin].
    destruct Hin as [Heq|Hin]; [|now apply (Hmap errors)].
    rewrite <- Heq in Hcolon. discriminate Hcolon.
  - destruct (truthy warnings); [|exact Hin].
    destruct Hin as [Heq|Hin]; [|now apply (Hmap warnings)].
    rewrite <- Heq in Hcolon. discriminate Hcolon.
  - rewrite Forall_forall in Htail. apply list_elem_of_In, Htail in Hin.
    rewrite Hcolon in Hin. discriminate Hin.
Qed.

(** C10.  A diagnostic of the run is printed as a CI annotation exactly
    when [--github] was given or [GITHUB_ACTIONS] is one of the arguments
    of the process; [main] reads nothing else to choose the format. *)
Theorem annotation_format_iff_flag_or_argument
        (args : Namespace Path) (sys_argv : list string) (d : ValidationError Path) :
  let diagnostics :=
    RepositoryValidator.validate safe_load (RepositoryValidator.__init__ (path args)) in
  In d (fst diagnostics ++ snd diagnostics) ->
  (In (format_for_github d) (fst (main safe_load args sys_argv))
   <-> github args = true \/ In "GITHUB_ACTIONS" sys_argv).
Proof.
  cbn zeta. unfold main.
  destruct (RepositoryValidator.validate safe_load _) as [errors warnings].
  cbn [fst snd]. intros Hd.
  rewrite <- is_github_actions_spec.
  destruct (is_github_actions args sys_argv) eqn:Hgh.
  - split; [reflexivity|]. intros _.
    assert (Hout : In (format_for_github d)
                      ((if truthy errors
                        then errors_header (length errors)
                             :: map (print_diagnostic true) errors
                        else [])
                       ++ (if truthy warnings
                           then warnings_header (length warnings)
                                :: map (print_diagnostic true) warnings
                           else []))).
    { apply in_app_iff. apply in_app_iff in Hd. destruct Hd as [Hd|Hd]; [left|right].
      - destruct errors as [|e errors]; [destruct Hd|].
        cbn [truthy]. right. now apply (in_map (print_diagnostic true)) in Hd.
      - destruct warnings as [|w warnings]; [destruct Hd|].
        cbn [truthy]. right. now apply (in_map (print_diagnostic true)) in Hd. }
    revert Hout.
    destruct (negb (truthy errors) && negb (truthy warnings));
      [|destruct (truthy errors); [|destruct (strict args && truthy warnings)]];
      cbn [fst]; rewrite ?in_app_iff; tauto.
  - split; [|discriminate]. intros Hin. exfalso. revert Hin.
    destruct (negb (truthy errors) && negb (truthy warnings)).
    + cbn [fst]. rewrite <- app_assoc.
      apply terminal_output_has_no_annotation. repeat constructor.
    + assert (Hsame : forall out : list string,
                 fst (if truthy errors then (out, 1%Z)
                      else if strict args && truthy warnings then (out, 1%Z)
                           else (out, 0%Z)) = out)
        by (intros out; now destruct (truthy errors), (strict args && truthy warnings)).
      rewrite Hsame. rewrite <- (app_nil_r (_ ++ _)), <- app_assoc.
      apply terminal_output_has_no_annotation. constructor.
Qed.

End MainClaims.

Lemma annotation_format_witness :
  In (@format_for_github _ (Tree.file_system Demo.actions_tree)
        (mkValidationError "error"
           "Skill name 'foo-bar' does not match directory name 'GITHUB_ACTIONS'"
           (Some ["GITHUB_ACTIONS"; "SKILL.md"])))
     (fst (Demo.run_main Demo.actions_tree (mkNamespace ["GITHUB_ACTIONS"] false false)
             ["validate-spec.py"; "GITHUB_ACTIONS"]))
  <-> github (mkNamespace ["GITHUB_ACTIONS"] false false) = true
      \/ In "GITHUB_ACTIONS" ["validate-spec.py"; "GITHUB_ACTIONS"].
Proof.
  apply (@annotation_format_iff_flag_or_argument
           _ (Tree.file_system Demo.actions_tree) FlatYaml.safe_load
           (mkNamespace ["GITHUB_ACTIONS"] false false)
           ["validate-spec.py"; "GITHUB_ACTIONS"]).
  vm_compute. left. reflexivity.
Defined.

(** A run without [--github] whose path argument is [GITHUB_ACTIONS]
    prints CI annotations. *)
Example annotations_without_the_flag :
  fst (Demo.run_main Demo.actions_tree (mkNamespace ["GITHUB_ACTIONS"] false false)
         ["validate-spec.py"; "GITHUB_ACTIONS"])
  = [ errors_header 1;
      "::error file=GITHUB_ACTIONS/SKILL.md::Skill name 'foo-bar' does not match directory name 'GITHUB_ACTIONS'";
      warnings_header 1;
      "::warning file=GITHUB_ACTIONS/SKILL.md::Consider using gerund form (verb-ing) for skill name: 'foo-bar' → 'foo-baring' or 'analyzing-foo-bar'" ].
Proof. vm_compute. reflexivity. Qed.

(** * Further properties of the script *)

(** ** Facts on the string primitives *)

Lemma take_drop (n : nat) (s : string) : s = Str.take n s +:+ Str.drop n s.
Proof.
  revert s. induction n as [|n IH]; intros s; [reflexivity|].
  destruct s as [|c s]; [reflexivity|].
  change (String c s = String c (Str.take n s +:+ Str.drop n s)).
  now rewrite <- IH.
Qed.

Lemma drop_drop (n m : nat) (s : string) :
  Str.drop n (Str.drop m s) = Str.drop (m + n) s.
Proof.
  revert s. induction m as [|m IH]; intros s; [reflexivity|].
  destruct s as [|c s]; cbn; [now destruct n | apply IH].
Qed.

Lemma startswith_split (s p : string) :
  Str.startswith s p = true -> s = p +:+ Str.drop (String.length p) s.
Proof.
  revert s. induction p as [|a p IH]; intros s Hs; [reflexivity|].
  destruct s as [|b s]; [discriminate Hs|].
  cbn in Hs. apply andb_true_iff in Hs. destruct Hs as [Hab Hs].
  apply Ascii.eqb_eq in Hab. subst b.
  change (String a s = String a (p +:+ Str.drop (String.length p) s)).
  now rewrite <- (IH s Hs).
Qed.

Lemma startswith_app (p s : string) : Str.startswith (p +:+ s) p = true.
Proof.
  induction p as [|a p IH]; [reflexivity|].
  change (Ascii.eqb a a && Str.startswith (p +:+ s) p = true).
  now rewrite Ascii.eqb_refl, IH.
Qed.

Lemma contains_here (sub s : string) :
  Str.startswith s sub = true -> Str.contains sub s = true.
Proof. intros Hs. destruct s; cbn; now rewrite Hs. Qed.

Lemma contains_later (sub a s : string) :
  Str.contains sub s = true -> Str.contains sub (a +:+ s) = true.
Proof.
  intros Hs. induction a as [|c a IH]; [exact Hs|].
  change (Str.startswith (String c (a +:+ s)) sub || Str.contains sub (a +:+ s) = true).
  rewrite IH. apply orb_true_r.
Qed.

(** A word occurs in every string built around it. *)
Lemma contains_infix (sub a b : string) : Str.contains sub (a +:+ sub +:+ b) = true.
Proof. apply contains_later, contains_here, startswith_app. Qed.

(** [find] returns an index at or after [start] where [sub] occurs. *)
Lemma find_from_sound (sub s : string) (pos start i : nat) :
  Str.find_from sub s pos start = Some i ->
  (start <= i)%nat /\ (pos <= i)%nat
  /\ Str.startswith (Str.drop (i - pos) s) sub = true.
Proof.
  revert pos. induction s as [|c s IH]; intros pos; cbn [Str.find_from].
  - destruct ((start <=? pos)%nat && Str.startswith "" sub) eqn:Hhere; [|discriminate].
    intros [= <-]. apply andb_true_iff in Hhere. destruct Hhere as [Hle Hsub].
    apply Nat.leb_le in Hle. rewrite Nat.sub_diag. cbn [Str.drop]. auto.
  - destruct ((start <=? pos)%nat && Str.startswith (String c s) sub) eqn:Hhere.
    + intros [= <-]. apply andb_true_iff in Hhere. destruct Hhere as [Hle Hsub].
      apply Nat.leb_le in Hle. rewrite Nat.sub_diag. cbn [Str.drop]. auto.
    + intros Hi. apply IH in Hi. destruct Hi as (Hs & Hp & Hsub).
      repeat split; [lia..|].
      replace (i - pos)%nat with (S (i - S pos)) by lia. exact Hsub.
Qed.

(** Once the scan is past [start], [find] fails exactly when [sub] does
    not occur. *)
Lemma find_from_none (sub s : string) (pos start : nat) :
  (start <= pos)%nat ->
  (Str.find_from sub s pos start = None <-> Str.contains sub s = false).
Proof.
  revert pos. induction s as [|c s IH]; intros pos Hle;
    cbn [Str.find_from Str.contains];
    apply Nat.leb_le in Hle as Hleb; rewrite Hleb; cbn [andb].
  - destruct (Str.startswith "" sub); cbn; split; congruence.
  - destruct (Str.startswith (String c s) sub); cbn [orb].
    + split; discriminate.
    + apply IH. lia.
Qed.

(** ** Outcomes of [validate] *)

Section Outcomes.
Context {Path : Type} `{FileSystem Path}.
Variable safe_load : yaml_loader.

Import SkillValidator.

(** [validate] only ever adds diagnostics to the validator. *)
Lemma validate_reports (self : t Path) :
  exists es ws, snd (validate safe_load self) = reports self es ws.
Proof.
  destruct (path_exists (skill_md self)) eqn:Hmd.
  - destruct (fst (fst (_parse_skill_md safe_load self))) as [fm|] eqn:Hfm.
    + rewrite (validate_parsed safe_load self fm Hmd Hfm). eauto.
    + rewrite (validate_unparsed safe_load self Hmd Hfm).
      destruct (parse_skill_md_reports safe_load self) as (es & -> & _). eauto.
  - rewrite (validate_missing safe_load self Hmd). eauto.
Qed.

(** X1.  Every diagnostic of a skill is located at its [SKILL.md]; the
    first list returned holds diagnostics of level [error] only, the
    second of level [warning] only. *)
Theorem diagnostics_are_levelled_and_located (skill_dir : Path) :
  Forall (fun d => level d = "error"
                   /\ file_path d = Some (joinpath skill_dir "SKILL.md"))
         (fst (fst (validate safe_load (__init__ skill_dir))))
  /\ Forall (fun d => level d = "warning"
                      /\ file_path d = Some (joinpath skill_dir "SKILL.md"))
            (snd (fst (validate safe_load (__init__ skill_dir)))).
Proof.
  rewrite validate_returns. cbn [fst snd].
  destruct (validate_reports (__init__ skill_dir)) as (es & ws & ->).
  rewrite errors_of_fresh, warnings_of_fresh.
  split; apply Forall_map, Forall_forall; intros m _; split; reflexivity.
Qed.

(** X2.  A skill whose frontmatter was not obtained, whatever the reason
    (no [SKILL.md], unreadable file, no opening or closing delimiter,
    invalid YAML, YAML that is not a mapping), gets exactly one error and
    no warning. *)
Theorem unparsed_skill_has_exactly_one_error (skill_dir : Path) :
  parsed_frontmatter safe_load skill_dir = None ->
  exists m, fst (validate safe_load (__init__ skill_dir)) = ([error_at skill_dir m], []).
Proof.
  unfold parsed_frontmatter. intros Hnone. rewrite validate_returns.
  destruct (path_exists (skill_md (__init__ skill_dir))) eqn:Hmd.
  - rewrite (validate_unparsed safe_load _ Hmd Hnone).
    destruct (parse_skill_md_reports safe_load (__init__ skill_dir)) as (es & -> & Hes).
    rewrite Hnone in Hes. destruct Hes as (m & -> & _).
    exists m. reflexivity.
  - rewrite (validate_missing safe_load _ Hmd). eexists. reflexivity.
Qed.

(** What [_parse_skill_md] does with a file that has both delimiters. *)
Lemma parse_delimited (self : t Path) (content : string) (end_delimiter : nat) :
  read_text (skill_md self) = inl content ->
  Str.startswith content ("---" +:+ Str.NL) = true ->
  Str.find content (Str.NL +:+ "---" +:+ Str.NL) 4 = Some end_delimiter ->
  _parse_skill_md safe_load self
  = match safe_load (Str.slice 4 end_delimiter content) with
    | inl (PyDict frontmatter) =>
        ((Some frontmatter, Str.drop (end_delimiter + 5) content), self)
    | inl _ =>
        ((None, Str.drop (end_delimiter + 5) content),
         reports self ["SKILL.md frontmatter must be a YAML dictionary"] [])
    | inr e =>
        ((None, Str.drop (end_delimiter + 5) content),
         reports self ["Invalid YAML in frontmatter: " +:+ e] [])
    end.
Proof.
  intros Hread Hstart Hfind. unfold _parse_skill_md, bind, get.
  rewrite Hread, Hstart. cbn [negb]. rewrite Hfind.
  destruct (safe_load _) as [[]|e]; try reflexivity;
    now rewrite (emits_error (skill_dir self) _ self eq_refl).
Qed.

(** X3.  Frontmatter that loads as something other than a mapping (a
    scalar, a sequence, [None] for an empty block) is reported by the one
    error saying so, and nothing else is checked. *)
Theorem non_mapping_frontmatter_is_the_only_error
        (skill_dir : Path) (content : string) (end_delimiter : nat) (loaded : pyobj) :
  path_exists (joinpath skill_dir "SKILL.md") = true ->
  read_text (joinpath skill_dir "SKILL.md") = inl content ->
  Str.startswith content ("---" +:+ Str.NL) = true ->
  Str.find content (Str.NL +:+ "---" +:+ Str.NL) 4 = Some end_delimiter ->
  safe_load (Str.slice 4 end_delimiter content) = inl loaded ->
  type_name loaded <> "dict" ->
  fst (validate safe_load (__init__ skill_dir))
  = ([error_at skill_dir "SKILL.md frontmatter must be a YAML dictionary"], []).
Proof.
  intros Hmd Hread Hstart Hfind Hload Htype.
  pose proof (parse_delimited (__init__ skill_dir) content end_delimiter
                Hread Hstart Hfind) as Hparse.
  rewrite Hload in Hparse.
  rewrite validate_returns, validate_unparsed; try assumption.
  - rewrite Hparse. destruct loaded; try reflexivity. now destruct Htype.
  - rewrite Hparse. destruct loaded; try reflexivity. now destruct Htype.
Qed.

(** X4.  When the YAML loader fails, its message is carried by the one
    error of the skill. *)
Theorem yaml_error_is_the_only_error
        (skill_dir : Path) (content : string) (end_delimiter : nat) (e : string) :
  path_exists (joinpath skill_dir "SKILL.md") = true ->
  read_text (joinpath skill_dir "SKILL.md") = inl content ->
  Str.startswith content ("---" +:+ Str.NL) = true ->
  Str.find content (Str.NL +:+ "---" +:+ Str.NL) 4 = Some end_delimiter ->
  safe_load (Str.slice 4 end_delimiter content) = inr e ->
  fst (validate safe_load (__init__ skill_dir))
  = ([error_at skill_dir ("Invalid YAML in frontmatter: " +:+ e)], []).
Proof.
  intros Hmd Hread Hstart Hfind Hload.
  pose proof (parse_delimited (__init__ skill_dir) content end_delimiter
                Hread Hstart Hfind) as Hparse.
  rewrite Hload in Hparse.
  rewrite validate_returns, validate_unparsed; try assumption; now rewrite Hparse.
Qed.

(** X5.  A successful parse takes the file apart without loss: the file
    is the opening delimiter line, the text that was loaded as YAML, the
    closing delimiter line and the body, in this order; and the parse
    reports nothing. *)
Theorem parsed_file_is_frontmatter_and_body
        (self : t Path) (content body : string) (frontmatter : gmap string pyobj) :
  read_text (skill_md self) = inl content ->
  fst (_parse_skill_md safe_load self) = (Some frontmatter, body) ->
  exists text,
    content = "---" +:+ Str.NL +:+ text +:+ Str.NL +:+ "---" +:+ Str.NL +:+ body
    /\ safe_load text = inl (PyDict frontmatter)
    /\ snd (_parse_skill_md safe_load self) = self.
Proof.
  intros Hread Hparsed.
  destruct (Str.startswith content ("---" +:+ Str.NL)) eqn:Hstart.
  2:{ unfold _parse_skill_md, bind, get in Hparsed. rewrite Hread, Hstart in Hparsed.
      cbn [negb] in Hparsed.
      rewrite (emits_error (skill_dir self) _ self eq_refl) in Hparsed.
      discriminate Hparsed. }
  destruct (Str.find content (Str.NL +:+ "---" +:+ Str.NL) 4) as [e|] eqn:Hfind.
  2:{ unfold _parse_skill_md, bind, get in Hparsed.
      rewrite Hread, Hstart in Hparsed. cbn [negb] in Hparsed. rewrite Hfind in Hparsed.
      rewrite (emits_error (skill_dir self) _ self eq_refl) in Hparsed.
      discriminate Hparsed. }
  rewrite (parse_delimited self content e Hread Hstart Hfind) in Hparsed |- *.
  exists (Str.slice 4 e content).
  destruct (safe_load (Str.slice 4 e content)) as [[]|msg]; try discriminate Hparsed.
  injection Hparsed as -> <-. split; [|split; reflexivity].
  apply find_from_sound in Hfind. destruct Hfind as (He & _ & Hclose).
  rewrite Nat.sub_0_r in Hclose.
  apply startswith_split in Hstart, Hclose.
  change (String.length ("---" +:+ Str.NL)) with 4 in Hstart.
  change (String.length (Str.NL +:+ "---" +:+ Str.NL)) with 5 in Hclose.
  rewrite drop_drop in Hclose.
  rewrite Hstart at 1. unfold Str.slice.
  rewrite (take_drop (e - 4) (Str.drop 4 content)) at 1.
  rewrite drop_drop. replace (4 + (e - 4))%nat with e by lia.
  rewrite Hclose at 1.
  change ("---" +:+ Str.NL) with (String "-" (String "-" (String "-" (String "010" "")))).
  change (Str.NL +:+ "---" +:+ Str.NL)
    with (String "010" (String "-" (String "-" (String "-" (String "010" ""))))).
  cbn [String.append]. reflexivity.
Qed.

(** X6.  A closing delimiter placed directly after the opening one is not
    seen: the search for it starts past the newline they share, so that an
    empty frontmatter block is reported as not closed unless a further
    delimiter line follows. *)
Theorem empty_frontmatter_block_is_not_closed (skill_dir : Path) (body : string) :
  path_exists (joinpath skill_dir "SKILL.md") = true ->
  read_text (joinpath skill_dir "SKILL.md")
  = inl ("---" +:+ Str.NL +:+ "---" +:+ Str.NL +:+ body) ->
  Str.contains (Str.NL +:+ "---" +:+ Str.NL) (Str.NL +:+ body) = false ->
  fst (validate safe_load (__init__ skill_dir))
  = ([error_at skill_dir "SKILL.md frontmatter not properly closed (missing closing ---)"],
     []).
Proof.
  intros Hmd Hread Hbody.
  assert (Hfind : Str.find ("---" +:+ Str.NL +:+ "---" +:+ Str.NL +:+ body)
                           (Str.NL +:+ "---" +:+ Str.NL) 4 = None).
  { change (Str.NL +:+ body) with (String "010" body) in Hbody.
    cbn [Str.contains] in Hbody. apply orb_false_iff in Hbody.
    destruct Hbody as [Hhere Hlater].
    apply (find_from_none _ _ 8 4) in Hlater; [|lia].
    unfold Str.find.
    change ("---" +:+ Str.NL +:+ "---" +:+ Str.NL +:+ body)
      with (String "-" (String "-" (String "-" (String "010"
              (String "-" (String "-" (String "-" (String "010" body)))))))).
    cbn [Str.find_from Nat.leb andb].
    change (Str.startswith (String "-" (String "-" (String "-" (String "010" body))))
              (Str.NL +:+ "---" +:+ Str.NL)) with false.
    change (Str.startswith (String "-" (String "-" (String "010" body)))
              (Str.NL +:+ "---" +:+ Str.NL)) with false.
    change (Str.startswith (String "-" (String "010" body))
              (Str.NL +:+ "---" +:+ Str.NL)) with false.
    rewrite Hhere. exact Hlater. }
  assert (Hparse : _parse_skill_md safe_load (__init__ skill_dir)
                   = ((None, "---" +:+ Str.NL +:+ "---" +:+ Str.NL +:+ body),
                      reports (__init__ skill_dir)
                        ["SKILL.md frontmatter not properly closed (missing closing ---)"]
                        [])).
  { unfold _parse_skill_md, bind, get.
    change (skill_md (__init__ skill_dir)) with (joinpath skill_dir "SKILL.md").
    rewrite Hread.
    change (Str.startswith ("---" +:+ Str.NL +:+ "---" +:+ Str.NL +:+ body)
              ("---" +:+ Str.NL)) with true.
    cbn [negb]. rewrite Hfind.
    now rewrite (emits_error skill_dir _ (__init__ skill_dir) eq_refl). }
  rewrite validate_returns, validate_unparsed; try assumption; now rewrite Hparse.
Qed.

End Outcomes.

Lemma unparsed_skill_witness :
  exists m,
    Demo.validate_skill Demo.no_frontmatter ["broken"]
    = ([@error_at _ (Tree.file_system Demo.no_frontmatter) ["broken"] m], []).
Proof.
  apply (@unparsed_skill_has_exactly_one_error
           _ (Tree.file_system Demo.no_frontmatter) FlatYaml.safe_load ["broken"]).
  vm_compute. reflexivity.
Defined.

Lemma non_mapping_frontmatter_witness :
  Demo.validate_skill (Samples.skill_with Samples.blank_frontmatter_md) ["foo-bar"]
  = ([mkValidationError "error" "SKILL.md frontmatter must be a YAML dictionary"
        (Some ["foo-bar"; "SKILL.md"])], []).
Proof.
  apply (@non_mapping_frontmatter_is_the_only_error
           _ (Tree.file_system (Samples.skill_with Samples.blank_frontmatter_md))
           FlatYaml.safe_load ["foo-bar"] Samples.blank_frontmatter_md 4 PyNone);
    try (vm_compute; reflexivity).
  discriminate.
Defined.

Lemma yaml_error_witness :
  Demo.validate_skill (Samples.skill_with Samples.invalid_yaml_md) ["foo-bar"]
  = ([mkValidationError "error"
        "Invalid YAML in frontmatter: could not find expected ':' in {unclosed"
        (Some ["foo-bar"; "SKILL.md"])], []).
Proof.
  apply (@yaml_error_is_the_only_error
           _ (Tree.file_system (Samples.skill_with Samples.invalid_yaml_md))
           FlatYaml.safe_load ["foo-bar"] Samples.invalid_yaml_md 13
           "could not find expected ':' in {unclosed");
    vm_compute; reflexivity.
Defined.

Lemma parsed_file_witness :
  exists text,
    Demo.foo_bar_md
    = "---" +:+ Str.NL +:+ text +:+ Str.NL +:+ "---" +:+ Str.NL +:+ Demo.ten_lines
    /\ FlatYaml.safe_load text = inl (PyDict Demo.foo_bar_mapping)
    /\ snd (@SkillValidator._parse_skill_md _ (Tree.file_system Demo.repository)
              FlatYaml.safe_load
              (@SkillValidator.__init__ _ (Tree.file_system Demo.repository)
                 ["domain"; "foo-bar"]))
       = @SkillValidator.__init__ _ (Tree.file_system Demo.repository)
           ["domain"; "foo-bar"].
Proof.
  apply (@parsed_file_is_frontmatter_and_body
           _ (Tree.file_system Demo.repository) FlatYaml.safe_load
           (@SkillValidator.__init__ _ (Tree.file_system Demo.repository)
              ["domain"; "foo-bar"])
           Demo.foo_bar_md Demo.ten_lines Demo.foo_bar_mapping);
    vm_compute; reflexivity.
Defined.

Lemma empty_frontmatter_block_witness :
  Demo.validate_skill (Samples.skill_with Samples.empty_block_md) ["foo-bar"]
  = ([mkValidationError "error"
        "SKILL.md frontmatter not properly closed (missing closing ---)"
        (Some ["foo-bar"; "SKILL.md"])], []).
Proof.
  apply (@empty_frontmatter_block_is_not_closed
           _ (Tree.file_system (Samples.skill_with Samples.empty_block_md))
           FlatYaml.safe_load ["foo-bar"] ("# Body" +:+ Str.NL));
    vm_compute; reflexivity.
Defined.

(** ** The content check *)

Section Content.
Context {Path : Type} `{FileSystem Path}.

Import SkillValidator.

Lemma link_warning_fine (dir : Path) (link : string * string) :
  link_is_fine dir link -> link_warning dir link = [].
Proof.
  unfold link_is_fine, link_warning. intros [-> | ->]; [reflexivity|].
  now rewrite andb_false_r.
Qed.

Lemma fine_links_no_warning (dir : Path) (lines : list string) :
  Forall (fun line => Forall (link_is_fine dir) (Re.findall_links line)) lines ->
  flat_map (fun line => flat_map (link_warning dir) (Re.findall_links line)) lines = [].
Proof.
  induction 1 as [|line lines Hline _ IH]; [reflexivity|].
  cbn [flat_map]. rewrite IH, app_nil_r.
  induction Hline as [|link links Hlink _ IHl]; [reflexivity|].
  cbn [flat_map]. now rewrite (link_warning_fine _ _ Hlink), IHl.
Qed.

(** The condition of [link_is_fine], decided line by line. *)
Lemma links_fine_by_check (dir : Path) (lines : list string) :
  forallb (fun line =>
             forallb (fun link =>
                        any (fun p => Str.startswith (snd link) p) url_prefixes
                        || path_exists (joinpath dir (snd link)))
                     (Re.findall_links line))
          lines = true ->
  Forall (fun line => Forall (link_is_fine dir) (Re.findall_links line)) lines.
Proof.
  intros Hcheck. rewrite forallb_forall in Hcheck.
  apply Forall_forall. intros line Hline.
  apply list_elem_of_In, Hcheck in Hline. rewrite forallb_forall in Hline.
  apply Forall_forall. intros link Hlink.
  apply list_elem_of_In, Hline, orb_true_iff in Hlink. exact Hlink.
Qed.

(** X7.  The content check never reports an error; and a body of at most
    500 lines whose every link is an absolute URL, a fragment, a [mailto:]
    target or a path that exists leaves the validator as it was. *)
Theorem content_check_never_errs_and_accepts_good_links (self : t Path) (body : string) :
  errors (snd (_validate_content body self)) = errors self
  /\ ((length (Str.split "010" body) <= MAX_SKILL_LINES)%nat ->
      Forall (fun line => Forall (link_is_fine (skill_dir self)) (Re.findall_links line))
             (Str.split "010" body) ->
      snd (_validate_content body self) = self).
Proof.
  rewrite (run_emits _ _ _ _ self (emits_validate_content (skill_dir self) body) eq_refl).
  split.
  - unfold reports. cbn. apply app_nil_r.
  - intros Hlen Hlinks. unfold content_warnings.
    apply Nat.ltb_ge in Hlen. rewrite Hlen. cbn [app].
    rewrite (fine_links_no_warning _ _ Hlinks). apply reports_nil.
Qed.

(** X8.  For a body without links the line-count warning is the only
    possible diagnostic, and it is reported exactly when the body splits
    into more than 500 lines: 500 lines pass, 501 are reported. *)
Theorem line_count_warning_above_500 (self : t Path) (body : string) :
  no_links body ->
  snd (_validate_content body self)
  = reports self []
      (if (500 <? length (Str.split "010" body))%nat
       then ["SKILL.md has " +:+ Str.of_nat (length (Str.split "010" body))
             +:+ " lines (recommended: ≤500). Consider using references/ for detailed content."]
       else []).
Proof.
  intros Hlinks.
  rewrite (run_emits _ _ _ _ self (emits_validate_content (skill_dir self) body) eq_refl).
  unfold content_warnings. rewrite (no_links_no_warning _ _ Hlinks), app_nil_r.
  reflexivity.
Qed.

(** X9.  Every markdown link of the body whose target is not an absolute
    URL, a fragment or a [mailto:] target, and does not exist relative to
    the skill directory, is reported as a broken internal reference. *)
Theorem missing_link_target_is_reported
        (self : t Path) (body line text target : string) :
  In line (Str.split "010" body) ->
  In (text, target) (Re.findall_links line) ->
  any (fun p => Str.startswith target p) url_prefixes = false ->
  path_exists (joinpath (skill_dir self) target) = false ->
  In (mkValidationError "warning" ("Broken internal reference: " +:+ target)
        (Some (skill_md self)))
     (warnings (snd (_validate_content body self))).
Proof.
  intros Hline Hlink Hurl Hmissing.
  rewrite (run_emits _ _ _ _ self (emits_validate_content (skill_dir self) body) eq_refl).
  unfold reports. cbn [warnings]. apply in_app_iff. right.
  apply in_map_iff. exists ("Broken internal reference: " +:+ target).
  split; [reflexivity|].
  unfold content_warnings. apply in_app_iff. right.
  apply in_flat_map. exists line. split; [exact Hline|].
  apply in_flat_map. exists (text, target). split; [exact Hlink|].
  unfold link_warning. cbn [snd]. rewrite Hurl, Hmissing. cbn. now left.
Qed.

End Content.

Lemma good_links_witness :
  snd (@SkillValidator._validate_content _ (Tree.file_system Samples.linked)
         Samples.url_body
         (@SkillValidator.__init__ _ (Tree.file_system Samples.linked) ["foo-bar"]))
  = @SkillValidator.__init__ _ (Tree.file_system Samples.linked) ["foo-bar"].
Proof.
  apply (proj2 (@content_check_never_errs_and_accepts_good_links
                  _ (Tree.file_system Samples.linked)
                  (@SkillValidator.__init__ _ (Tree.file_system Samples.linked) ["foo-bar"])
                  Samples.url_body)).
  - vm_compute. lia.
  - apply links_fine_by_check. vm_compute. reflexivity.
Defined.

Lemma line_count_witness :
  snd (@SkillValidator._validate_content _ (Tree.file_system Demo.repository)
         Demo.ten_lines
         (@SkillValidator.__init__ _ (Tree.file_system Demo.repository)
            ["domain"; "foo-bar"]))
  = reports (@SkillValidator.__init__ _ (Tree.file_system Demo.repository)
               ["domain"; "foo-bar"])
      []
      (if (500 <? length (Str.split "010" Demo.ten_lines))%nat
       then ["SKILL.md has " +:+ Str.of_nat (length (Str.split "010" Demo.ten_lines))
             +:+ " lines (recommended: ≤500). Consider using references/ for detailed content."]
       else []).
Proof.
  apply (@line_count_warning_above_500 _ (Tree.file_system Demo.repository)).
  repeat constructor.
Defined.

Lemma missing_link_target_witness :
  In (mkValidationError "warning" "Broken internal reference: references/missing.md"
        (Some ["foo-bar"; "SKILL.md"]))
     (SkillValidator.warnings
        (snd (@SkillValidator._validate_content _ (Tree.file_system Samples.linked)
                Samples.linked_body
                (@SkillValidator.__init__ _ (Tree.file_system Samples.linked)
                   ["foo-bar"])))).
Proof.
  apply (@missing_link_target_is_reported
           _ (Tree.file_system Samples.linked)
           (@SkillValidator.__init__ _ (Tree.file_system Samples.linked) ["foo-bar"])
           Samples.linked_body "Then [the rest](references/missing.md)."
           "the rest" "references/missing.md").
  - vm_compute. right. left. reflexivity.
  - vm_compute. left. reflexivity.
  - reflexivity.
  - reflexivity.
Defined.

(** ** Frontmatter keys and field rules *)

Section Keys.
Context {Path : Type} `{FileSystem Path}.

Import SkillValidator.

(** X10.  The frontmatter check reads five keys; a value stored under any
    other key never changes what it reports. *)
Theorem unknown_key_is_ignored
        (self : t Path) (frontmatter : gmap string pyobj) (key : string) (value : pyobj) :
  ~ In key ["name"; "description"; "license"; "compatibility"; "metadata"] ->
  _validate_frontmatter (<[key := value]> frontmatter) self
  = _validate_frontmatter frontmatter self.
Proof.
  intros Hkey. unfold _validate_frontmatter.
  rewrite !lookup_insert_ne; [reflexivity|..];
    intros ->; apply Hkey; cbn; tauto.
Qed.

(** X11.  An optional field of the type the script expects (a string for
    [license] and [compatibility], a mapping for [metadata]) is accepted
    silently: the report is the one of the frontmatter without the
    field. *)
Theorem well_typed_optional_field_changes_nothing
        (self : t Path) (frontmatter : gmap string pyobj) (s : string)
        (d : gmap string pyobj) :
  _validate_frontmatter (<["license" := PyStr s]> frontmatter) self
  = _validate_frontmatter (delete "license" frontmatter) self
  /\ _validate_frontmatter (<["compatibility" := PyStr s]> frontmatter) self
     = _validate_frontmatter (delete "compatibility" frontmatter) self
  /\ _validate_frontmatter (<["metadata" := PyDict d]> frontmatter) self
     = _validate_frontmatter (delete "metadata" frontmatter) self.
Proof.
  unfold _validate_frontmatter.
  repeat split;
    rewrite !lookup_insert_eq, !lookup_delete_eq;
    rewrite !lookup_insert_ne, !lookup_delete_ne by discriminate;
    reflexivity.
Qed.

Lemma in_fired (m : string) (table : list Rules.rule) :
  In (true, m) table -> In m (Rules.fired table).
Proof.
  intros Hin. unfold Rules.fired. apply in_map_iff. exists (true, m).
  split; [reflexivity|]. apply filter_In. now split.
Qed.

(** X12.  A reserved word is found wherever it stands in the name: a name
    built around [anthropic] or [claude] gets the error naming that
    word. *)
Theorem reserved_word_anywhere_is_an_error
        (self : t Path) (reserved before after : string) :
  In reserved RESERVED_WORDS ->
  In (mkValidationError "error"
        ("Skill name cannot contain reserved word '" +:+ reserved +:+ "'")
        (Some (skill_md self)))
     (errors (snd (_validate_name (PyStr (before +:+ reserved +:+ after)) self))).
Proof.
  intros Hreserved.
  rewrite (run_emits _ _ _ _ self
             (emits_validate_name (skill_dir self) (PyStr (before +:+ reserved +:+ after)))
             eq_refl).
  unfold reports. cbn [errors Rules.name_diagnostics fst]. apply in_app_iff. right.
  apply in_map_iff. eexists. split; [reflexivity|].
  apply in_fired. unfold Rules.name_errors. apply in_app_iff. right.
  apply in_app_iff. left. apply in_map_iff. exists reserved.
  split; [|exact Hreserved].
  unfold Rules.reserved_rule. now rewrite contains_infix.
Qed.

(** X13.  The gerund nudge is not given to a name that starts with one of
    the nine listed verb forms, whatever it ends in. *)
Theorem listed_gerund_prefix_needs_no_suffix
        (self : t Path) (name prefix : string) :
  In prefix gerund_prefixes ->
  Str.startswith name prefix = true ->
  warnings (snd (_validate_name (PyStr name) self)) = warnings self.
Proof.
  intros Hprefix Hstart.
  rewrite (run_emits _ _ _ _ self
             (emits_validate_name (skill_dir self) (PyStr name)) eq_refl).
  cbn [Rules.name_diagnostics snd]. unfold Rules.name_warnings.
  assert (Hany : any (fun prefix => Str.startswith name prefix) gerund_prefixes = true).
  { apply existsb_exists. exists prefix. now split. }
  rewrite Hany, andb_false_r. unfold reports. cbn. apply app_nil_r.
Qed.

(** X14.  A description that is too long and otherwise in order (something
    left after trimming, no angle bracket) gets exactly one error, the
    one on its length. *)
Theorem long_description_has_the_length_error_only (self : t Path) (description : string) :
  Str.strip description <> "" ->
  (MAX_DESCRIPTION_LENGTH < String.length description)%nat ->
  Str.contains "<" description = false ->
  Str.contains ">" description = false ->
  errors (snd (_validate_description (PyStr description) self))
  = (errors self
     ++ [mkValidationError "error"
           ("Skill description exceeds maximum length of 1024 characters ("
            +:+ Str.of_nat (String.length description) +:+ " chars)")
           (Some (skill_md self))])%list.
Proof.
  intros Hstrip Hlen Hlt Hgt.
  rewrite (run_emits _ _ _ _ self
             (emits_validate_description (skill_dir self) (PyStr description)) eq_refl).
  cbn [Rules.description_diagnostics].
  apply String.eqb_neq in Hstrip. rewrite Hstrip. cbn [fst snd].
  unfold Rules.description_errors. apply Nat.ltb_lt in Hlen. rewrite Hlen, Hlt, Hgt.
  reflexivity.
Qed.

End Keys.

Lemma unknown_key_witness :
  @SkillValidator._validate_frontmatter _ (Tree.file_system Demo.repository)
    (<["author" := PyInt 7]> Demo.foo_bar_mapping)
    (@SkillValidator.__init__ _ (Tree.file_system Demo.repository) ["domain"; "foo-bar"])
  = @SkillValidator._validate_frontmatter _ (Tree.file_system Demo.repository)
      Demo.foo_bar_mapping
      (@SkillValidator.__init__ _ (Tree.file_system Demo.repository) ["domain"; "foo-bar"]).
Proof.
  apply (@unknown_key_is_ignored _ (Tree.file_system Demo.repository)).
  cbn. intros [H|[H|[H|[H|[H|[]]]]]]; discriminate H.
Defined.

Lemma reserved_word_witness :
  In (mkValidationError "error" "Skill name cannot contain reserved word 'claude'"
        (Some ["domain"; "foo-bar"; "SKILL.md"]))
     (SkillValidator.errors
        (Demo.check_name Demo.repository ["domain"; "foo-bar"]
           (PyStr "my-claude-helper"))).
Proof.
  apply (@reserved_word_anywhere_is_an_error
           _ (Tree.file_system Demo.repository)
           (@SkillValidator.__init__ _ (Tree.file_system Demo.repository)
              ["domain"; "foo-bar"])
           "claude" "my-" "-helper").
  cbn. tauto.
Defined.

Lemma listed_gerund_prefix_witness :
  SkillValidator.warnings
    (Demo.check_name Demo.repository ["domain"; "foo-bar"] (PyStr "tuning-guide"))
  = [].
Proof.
  apply (@listed_gerund_prefix_needs_no_suffix
           _ (Tree.file_system Demo.repository)
           (@SkillValidator.__init__ _ (Tree.file_system Demo.repository)
              ["domain"; "foo-bar"])
           "tuning-guide" "tuning").
  - cbn. tauto.
  - reflexivity.
Defined.

Lemma long_description_witness :
  SkillValidator.errors
    (Demo.check_description Demo.repository ["domain"; "foo-bar"]
       (PyStr Samples.long_description))
  = [mkValidationError "error"
       "Skill description exceeds maximum length of 1024 characters (1025 chars)"
       (Some ["domain"; "foo-bar"; "SKILL.md"])].
Proof.
  apply (@long_description_has_the_length_error_only
           (list string)
           (@SkillValidator.__init__ _ (Tree.file_system Demo.repository)
              ["domain"; "foo-bar"])
           Samples.long_description).
  - vm_compute. discriminate.
  - vm_compute. lia.
  - vm_compute. reflexivity.
  - vm_compute. reflexivity.
Defined.

(** ** The repository run *)

Section Repository.
Context {Path : Type} `{FileSystem Path}.
Variable safe_load : yaml_loader.

Import RepositoryValidator.

(** The loop of [validate] extends both lists by the report of each
    skill, in order. *)
Lemma validate_loop (skill_dirs : list Path) (self : t Path) :
  let self' :=
    fold_left (fun (self : t Path) (skill_dir : Path) =>
                 let validator := SkillValidator.__init__ skill_dir in
                 let '(errors', warnings') :=
                   fst (SkillValidator.validate safe_load validator) in
                 mk (skills_dir self) (errors self ++ errors') (warnings self ++ warnings'))
              skill_dirs self in
  errors self'
  = (errors self ++ flat_map (fun d => fst (skill_report safe_load d)) skill_dirs)%list
  /\ warnings self'
     = (warnings self ++ flat_map (fun d => snd (skill_report safe_load d)) skill_dirs)%list.
Proof.
  cbn zeta. revert self. induction skill_dirs as [|d l IH]; intros self.
  - cbn. now rewrite !app_nil_r.
  - cbn [fold_left flat_map]. unfold skill_report at 1 3.
    destruct (fst (SkillValidator.validate safe_load (SkillValidator.__init__ d)))
      as [es ws] eqn:Hd.
    destruct (IH (mk (skills_dir self) (errors self ++ es) (warnings self ++ ws)))
      as [-> ->].
    cbn [errors warnings fst snd]. now rewrite <- !app_assoc.
Qed.

(** X15.  On a root that is a directory, the report of the repository is
    the reports of the discovered skills put end to end, in discovery
    order: no diagnostic is added, dropped or reordered, and none when
    nothing is discovered. *)
Theorem repository_report_concatenates_skill_reports (root : Path) :
  path_exists root = true ->
  is_dir root = true ->
  validate safe_load (__init__ root)
  = (flat_map (fun d => fst (skill_report safe_load d))
              (_find_skill_directories (__init__ root)),
     flat_map (fun d => snd (skill_report safe_load d))
              (_find_skill_directories (__init__ root))).
Proof.
  intros Hexists Hdir. unfold validate.
  change (skills_dir (__init__ root)) with root. rewrite Hexists, Hdir. cbn [negb].
  destruct (_find_skill_directories (__init__ root)) as [|d l] eqn:Hfound;
    [reflexivity|].
  cbn [truthy negb].
  destruct (validate_loop (d :: l) (__init__ root)) as [He Hw].
  cbn zeta in He, Hw. rewrite He, Hw. reflexivity.
Qed.

(** X16.  Pointed at a single skill directory, the repository run returns
    what validating that skill returns. *)
Theorem single_skill_root_is_validated_alone (root : Path) :
  path_exists root = true ->
  is_dir root = true ->
  path_exists (joinpath root "SKILL.md") = true ->
  validate safe_load (__init__ root) = skill_report safe_load root.
Proof.
  intros Hexists Hdir Hmd.
  rewrite (repository_report_concatenates_skill_reports root Hexists Hdir).
  unfold _find_skill_directories. change (skills_dir (__init__ root)) with root.
  rewrite Hmd. cbn [flat_map]. rewrite !app_nil_r.
  now destruct (skill_report safe_load root).
Qed.

(** X17.  A root that does not exist, or is not a directory, ends the run
    with one error that has no location: no skill is validated, the error
    is printed after the header counting one error, and the exit code is
    1 with or without [--strict]. *)
Theorem unusable_root_is_the_only_error (args : Namespace Path) (sys_argv : list string) :
  path_exists (path args) && is_dir (path args) = false ->
  validate safe_load (__init__ (path args)) = ([root_error (path args)], [])
  /\ main safe_load args sys_argv
     = ([errors_header 1;
         print_diagnostic (is_github_actions args sys_argv) (root_error (path args))],
        1%Z).
Proof.
  intros Hroot.
  assert (Hrun : validate safe_load (__init__ (path args)) = ([root_error (path args)], [])).
  { unfold validate, root_error. change (skills_dir (__init__ (path args))) with (path args).
    destruct (path_exists (path args)); cbn [negb]; [|reflexivity].
    cbn [andb] in Hroot. now rewrite Hroot. }
  split; [exact Hrun|]. unfold main. now rewrite Hrun.
Qed.

(** X18.  A repository in which no skill is discovered passes: nothing is
    reported, the success line is the only output and the exit code is 0,
    also under [--strict]. *)
Theorem empty_repository_passes (args : Namespace Path) (sys_argv : list string) :
  path_exists (path args) = true ->
  is_dir (path args) = true ->
  _find_skill_directories (__init__ (path args)) = [] ->
  main safe_load args sys_argv = ([all_passed], 0%Z).
Proof.
  intros Hexists Hdir Hnone. unfold main.
  rewrite (repository_report_concatenates_skill_reports _ Hexists Hdir), Hnone.
  reflexivity.
Qed.

(** X19.  Every diagnostic of a repository run on a directory belongs to
    a discovered skill: it is located at the [SKILL.md] of one of the
    directories discovery returned. *)
Theorem repository_diagnostics_belong_to_discovered_skills
        (root : Path) (d : ValidationError Path) :
  path_exists root = true ->
  is_dir root = true ->
  In d (fst (validate safe_load (__init__ root))
        ++ snd (validate safe_load (__init__ root))) ->
  exists skill_dir,
    In skill_dir (_find_skill_directories (__init__ root))
    /\ file_path d = Some (joinpath skill_dir "SKILL.md").
Proof.
  intros Hexists Hdir Hd.
  rewrite (repository_report_concatenates_skill_reports root Hexists Hdir) in Hd.
  cbn [fst snd] in Hd. apply in_app_iff in Hd.
  destruct Hd as [Hd|Hd]; apply in_flat_map in Hd;
    destruct Hd as (skill_dir & Hfound & Hd); exists skill_dir; (split; [exact Hfound|]);
    destruct (diagnostics_are_levelled_and_located safe_load skill_dir) as [He Hw];
    rewrite Forall_forall in He, Hw; unfold skill_report in Hd;
    apply list_elem_of_In in Hd.
  - now apply He in Hd.
  - now apply Hw in Hd.
Qed.

End Repository.

Lemma repository_report_witness :
  Demo.validate_repository Samples.two_domains []
  = (flat_map (fun d => fst (Demo.validate_skill Samples.two_domains d))
              (Demo.find_skills Samples.two_domains []),
     flat_map (fun d => snd (Demo.validate_skill Samples.two_domains d))
              (Demo.find_skills Samples.two_domains [])).
Proof.
  apply (@repository_report_concatenates_skill_reports
           _ (Tree.file_system Samples.two_domains) FlatYaml.safe_load []);
    reflexivity.
Defined.

Lemma single_skill_root_witness :
  Demo.validate_repository Demo.repository ["domain"; "foo-bar"]
  = Demo.validate_skill Demo.repository ["domain"; "foo-bar"].
Proof.
  apply (@single_skill_root_is_validated_alone
           _ (Tree.file_system Demo.repository) FlatYaml.safe_load ["domain"; "foo-bar"]);
    reflexivity.
Defined.

Lemma unusable_root_witness :
  Demo.validate_repository Samples.no_skills ["missing"]
  = ([@root_error _ (Tree.file_system Samples.no_skills) ["missing"]], [])
  /\ Demo.run_main Samples.no_skills (mkNamespace ["missing"] true false) ["validate-spec.py"]
     = ([errors_header 1;
         @print_diagnostic _ (Tree.file_system Samples.no_skills) false
           (@root_error _ (Tree.file_system Samples.no_skills) ["missing"])],
        1%Z).
Proof.
  apply (@unusable_root_is_the_only_error
           _ (Tree.file_system Samples.no_skills) FlatYaml.safe_load
           (mkNamespace ["missing"] true false) ["validate-spec.py"]).
  reflexivity.
Defined.

Lemma empty_repository_witness :
  Demo.run_main Samples.no_skills (mkNamespace [] true false) ["validate-spec.py"]
  = ([all_passed], 0%Z).
Proof.
  apply (@empty_repository_passes
           _ (Tree.file_system Samples.no_skills) FlatYaml.safe_load
           (mkNamespace [] true false) ["validate-spec.py"]);
    reflexivity.
Defined.

Lemma repository_diagnostics_witness :
  exists skill_dir,
    In skill_dir (Demo.find_skills Samples.two_domains [])
    /\ Some ["beta"; "broken"; "SKILL.md"]
       = Some (@joinpath _ (Tree.file_system Samples.two_domains) skill_dir "SKILL.md").
Proof.
  apply (@repository_diagnostics_belong_to_discovered_skills
           _ (Tree.file_system Samples.two_domains) FlatYaml.safe_load []
           (mkValidationError "error" "SKILL.md must start with YAML frontmatter (---)"
              (Some ["beta"; "broken"; "SKILL.md"])));
    try reflexivity.
  vm_compute. left. reflexivity.
Defined.

(** ** The success line *)

Section SuccessLine.
Context {Path : Type} `{FileSystem Path}.
Variable safe_load : yaml_loader.

Lemma diagnostic_line_is_not_success (gh : bool) (l : list (ValidationError Path)) :
  ~ In all_passed (map (print_diagnostic gh) l).
Proof.
  intros Hin. apply in_map_iff in Hin. destruct Hin as (d & Heq & _).
  apply (f_equal first_char) in Heq. destruct gh; cbn [print_diagnostic] in Heq.
  - rewrite github_line_starts_with_colon in Heq. discriminate Heq.
  - rewrite terminal_line_starts_with_escape in Heq. discriminate Heq.
Qed.

Lemma headers_are_not_success (n : nat) :
  errors_header n <> all_passed /\ warnings_header n <> all_passed.
Proof.
  split; intros Heq; apply (f_equal (Str.take 5)) in Heq; discriminate Heq.
Qed.

(** X20.  The success line is printed exactly when the run found neither
    an error nor a warning; a run with warnings only exits with 0 when
    [--strict] is off, but without that line. *)
Theorem success_line_iff_no_diagnostics (args : Namespace Path) (sys_argv : list string) :
  In all_passed (fst (main safe_load args sys_argv))
  <-> RepositoryValidator.validate safe_load (RepositoryValidator.__init__ (path args))
      = ([], []).
Proof.
  unfold main.
  destruct (RepositoryValidator.validate safe_load _) as [errors warnings].
  destruct errors as [|e errors], warnings as [|w warnings]; cbn [truthy negb andb].
  - cbn. tauto.
  - split; [|discriminate]. intros Hin. exfalso.
    assert (Hout : In all_passed
                      (warnings_header (length (w :: warnings))
                       :: map (print_diagnostic (is_github_actions args sys_argv))
                              (w :: warnings)))
      by (destruct (strict args); exact Hin).
    destruct Hout as [Heq|Hline].
    + now apply (headers_are_not_success (length (w :: warnings))).
    + now apply diagnostic_line_is_not_success in Hline.
  - split; [|discriminate]. intros Hin. exfalso.
    cbn [fst] in Hin. rewrite app_nil_r in Hin. destruct Hin as [Heq|Hline].
    + now apply (headers_are_not_success (length (e :: errors))).
    + now apply diagnostic_line_is_not_success in Hline.
  - split; [|discriminate]. intros Hin. exfalso.
    cbn [fst] in Hin. apply in_app_iff in Hin.
    destruct Hin as [[Heq|Hline]|[Heq|Hline]].
    + now apply (headers_are_not_success (length (e :: errors))).
    + now apply diagnostic_line_is_not_success in Hline.
    + now apply (headers_are_not_success (length (w :: warnings))).
    + now apply diagnostic_line_is_not_success in Hline.
Qed.

End SuccessLine.

(** ** The format rule of names *)

Lemma span_app (p : ascii -> bool) (core rest : string) :
  Forall (fun c => p c = true) (list_ascii_of_string core) ->
  (rest = "" \/ exists c r, rest = String c r /\ p c = false) ->
  Str.span p (core +:+ rest) = (core, rest).
Proof.
  intros Hcore Hrest. induction core as [|a core IH].
  - destruct Hrest as [->|(c & r & -> & Hc)]; [reflexivity|].
    change ("" +:+ String c r) with (String c r). cbn. now rewrite Hc.
  - cbn [list_ascii_of_string] in Hcore. apply Forall_cons in Hcore.
    destruct Hcore as [Ha Hcore].
    change (String a core +:+ rest) with (String a (core +:+ rest)).
    cbn [Str.span]. now rewrite Ha, (IH Hcore).
Qed.

Lemma span_spec (p : ascii -> bool) (s run rest : string) :
  Str.span p s = (run, rest) ->
  s = run +:+ rest
  /\ Forall (fun c => p c = true) (list_ascii_of_string run)
  /\ (rest = "" \/ exists c r, rest = String c r /\ p c = false).
Proof.
  revert run rest. induction s as [|a s IH]; intros run rest; cbn [Str.span].
  - intros [= <- <-]. repeat split; [constructor | now left].
  - destruct (p a) eqn:Ha.
    + destruct (Str.span p s) as [run' rest'] eqn:Hs. intros [= <- <-].
      destruct (IH run' rest' eq_refl) as (-> & Hrun & Hrest).
      repeat split; [|exact Hrest].
      cbn [list_ascii_of_string]. now constructor.
    + intros [= <- <-]. repeat split; [constructor|].
      right. now exists a, s.
Qed.

(** X21.  The format rule accepts exactly the names made of one or more
    characters among [a-z], [0-9] and the hyphen, with or without one
    newline after them: the pattern's [$] also matches just before a
    final newline. *)
Theorem format_rule_accepts_allowed_characters_and_final_newline (name : string) :
  Re.match_name name = true
  <-> exists core,
        core <> ""
        /\ Forall (fun c => Re.name_char c = true) (list_ascii_of_string core)
        /\ (name = core \/ name = core +:+ Str.NL).
Proof.
  unfold Re.match_name. split.
  - destruct (Str.span Re.name_char name) as [run rest] eqn:Hspan.
    intros Hmatch. apply andb_true_iff in Hmatch. destruct Hmatch as [Hrun Hrest].
    apply negb_true_iff, String.eqb_neq in Hrun.
    apply span_spec in Hspan. destruct Hspan as (-> & Hchars & _).
    exists run. repeat split; [exact Hrun | exact Hchars |].
    apply orb_true_iff in Hrest. destruct Hrest as [Hrest|Hrest];
      apply String.eqb_eq in Hrest; subst rest; [left|right; reflexivity].
    clear. induction run as [|a run IH]; [reflexivity|].
    change (String a run +:+ "") with (String a (run +:+ "")). now rewrite IH.
  - intros (core & Hcore & Hchars & Hname).
    assert (Hspan : exists rest,
               Str.span Re.name_char name = (core, rest)
               /\ (rest = "" \/ rest = Str.NL)).
    { destruct Hname as [->| ->].
      - exists "". split; [|now left].
        rewrite <- (span_app Re.name_char core "" Hchars) by now left.
        f_equal. clear. induction core as [|a core IH]; [reflexivity|].
        change (String a core +:+ "") with (String a (core +:+ "")). now rewrite <- IH.
      - exists Str.NL. split; [|now right].
        apply span_app; [exact Hchars|].
        right. exists "010"%char, "". split; reflexivity. }
    destruct Hspan as (rest & -> & Hrest).
    apply String.eqb_neq in Hcore. rewrite Hcore. cbn [negb andb].
    destruct Hrest as [-> | ->]; reflexivity.
Qed.
